(** * haiku-format-bot: the reformat orchestrator and the comment mapper

    A shallow embedding of [formatchecker/core.py] and the properties of
    its class-region detector, its per-file formatting decisions and the
    review payload it builds.

    Conventions of the embedding:
    - Python [int] is [Z]; a Python [str] is a [string] whose characters
      are code points below 256; [list[str]] is [list string].
    - [None] is [None]; an attribute that may be [None] is an [option].
    - The three compiled patterns are values of a small regular
      expression type, matched by a backtracking matcher written in
      continuation-passing style ([re.match] semantics: anchored at the
      start of the subject, not at its end).
    - The logger and the external formatter are observed through a trace
      of events; exceptions are a result type. *)

From Stdlib Require Import ZArith Ascii String List Bool Lia Sorted.
From stdpp Require Import base option list gmap sets strings fin_maps.

Local Open Scope string_scope.
Local Open Scope Z_scope.
Local Open Scope list_scope.

(** ** Strings *)

(** The line feed, the only character [.] refuses and the only one [$]
    tolerates after its position. *)
Definition LF : ascii := ascii_of_nat 10.

(** [str.count(c)] for a one-character needle. *)
Fixpoint count (c : ascii) (s : string) : Z :=
  match s with
  | EmptyString => 0
  | String d s' => (if Ascii.eqb d c then 1 else 0) + count c s'
  end.

(** Lower-casing of one character, as [re.IGNORECASE] compares a subject
    character with an ASCII pattern literal: only 'A'..'Z' are moved. *)
Definition lower (c : ascii) : ascii :=
  let n := nat_of_ascii c in
  if (Nat.leb 65 n && Nat.leb n 90)%bool then ascii_of_nat (n + 32) else c.

(** [str.lower()] restricted to the same range. *)
Fixpoint lower_string (s : string) : string :=
  match s with
  | EmptyString => EmptyString
  | String c s' => String (lower c) (lower_string s')
  end.

(** ["".join(parts)] *)
Definition join (parts : list string) : string :=
  fold_right String.append EmptyString parts.

(** ** Regular expressions, as far as the three patterns need them *)

Module Re.

Inductive regex : Type :=
| Bol                      (* ^   : only at position 0 (no MULTILINE) *)
| Eol                      (* $   : at the end, or before a final line feed *)
| Lit (c : ascii)          (* one literal character *)
| DotStar                  (* .*  : any run of characters other than line feed *)
| Eps                      (* the empty pattern *)
| Seq (r1 r2 : regex)      (* r1 r2 *)
| Alt (r1 r2 : regex)      (* r1|r2 *)
| Opt (r : regex).         (* r? *)

(** A literal word, character by character. *)
Fixpoint Str (s : string) : regex :=
  match s with
  | EmptyString => Eps
  | String c s' => Seq (Lit c) (Str s')
  end.

(** [r|r1|...|rn] *)
Fixpoint Alts (r : regex) (rs : list regex) : regex :=
  match rs with
  | [] => r
  | r' :: rs' => Alt r (Alts r' rs')
  end.

(** Where [$] succeeds: nothing left, or exactly one line feed left. *)
Definition at_end (rest : string) : bool :=
  match rest with
  | EmptyString => true
  | String c EmptyString => Ascii.eqb c LF
  | _ => false
  end.

(** Comparison of a pattern literal with a subject character. *)
Definition lit_eqb (ignorecase : bool) (c d : ascii) : bool :=
  if ignorecase then Ascii.eqb (lower c) (lower d) else Ascii.eqb c d.

(** [.*] followed by the continuation [k]: some split of the subject
    after a run free of line feeds makes [k] succeed.  The engine tries
    the longest run first; whether a match exists does not depend on
    that order. *)
Fixpoint dot_star (k : nat → string → bool) (pos : nat) (rest : string) : bool :=
  k pos rest ||
  match rest with
  | EmptyString => false
  | String c rest' =>
      if Ascii.eqb c LF then false else dot_star k (S pos) rest'
  end.

(** The matcher: [run ic r k pos rest] holds when [r] matches a prefix
    of [rest] (which starts at offset [pos] of the subject) and [k]
    accepts what follows. *)
Fixpoint run (ignorecase : bool) (r : regex) (k : nat → string → bool)
         (pos : nat) (rest : string) : bool :=
  match r with
  | Bol => Nat.eqb pos 0 && k pos rest
  | Eol => at_end rest && k pos rest
  | Lit c =>
      match rest with
      | EmptyString => false
      | String d rest' => lit_eqb ignorecase c d && k (S pos) rest'
      end
  | DotStar => dot_star k pos rest
  | Eps => k pos rest
  | Seq r1 r2 => run ignorecase r1 (run ignorecase r2 k) pos rest
  | Alt r1 r2 => run ignorecase r1 k pos rest || run ignorecase r2 k pos rest
  | Opt r1 => run ignorecase r1 k pos rest || k pos rest
  end.

(** [re.match(pattern, subject, flags)] as a truth value. *)
Definition matches (ignorecase : bool) (r : regex) (subject : string) : bool :=
  run ignorecase r (λ _ _, true) 0%nat subject.

End Re.

Import Re.

(** [EXTENSION_PATTERN]:
    ^.*\.(?:cpp|cc|c\+\+|cxx|cppm|ccm|cxxm|c\+\+m|c|cl|h|hh|hpp|hxx|m|mm|inc
           |js|ts|proto|protodevel|java|cs|json|s?vh?)$ *)
Definition EXTENSION_PATTERN : regex :=
  Seq Bol (Seq DotStar (Seq (Lit ".")
    (Seq (Alts (Str "cpp")
            [Str "cc"; Str "c++"; Str "cxx"; Str "cppm"; Str "ccm";
             Str "cxxm"; Str "c++m"; Str "c"; Str "cl"; Str "h"; Str "hh";
             Str "hpp"; Str "hxx"; Str "m"; Str "mm"; Str "inc"; Str "js";
             Str "ts"; Str "proto"; Str "protodevel"; Str "java"; Str "cs";
             Str "json";
             Seq (Opt (Lit "s")) (Seq (Lit "v") (Opt (Lit "h")))])
         Eol))).

(** [_CLASS_DECLARATION_PATTERN]: ^(?:class|struct) .*;$ *)
Definition _CLASS_DECLARATION_PATTERN : regex :=
  Seq Bol (Seq (Alt (Str "class") (Str "struct"))
    (Seq (Lit " ") (Seq DotStar (Seq (Lit ";") Eol)))).

(** [_CLASS_DEFINITION_START_PATTERN]: ^(?:class|struct) .*$ *)
Definition _CLASS_DEFINITION_START_PATTERN : regex :=
  Seq Bol (Seq (Alt (Str "class") (Str "struct"))
    (Seq (Lit " ") (Seq DotStar Eol))).

(** ** The class-region detector *)

(** The three locals of [get_class_lines_in_file]. *)
Record ScanState : Type := mkScan {
  skip_lines : list Z;
  in_class : bool;
  level : Z
}.

(** [level += line.count('{'); level -= line.count('}')] *)
Definition update_level (level : Z) (line : string) : Z :=
  level + count "{" line - count "}" line.

(** One iteration of the loop body. *)
Definition scan_line (st : ScanState) (lineno : Z) (line : string) : ScanState :=
  if negb (in_class st) then
    if matches false _CLASS_DECLARATION_PATTERN line then st
    else if matches false _CLASS_DEFINITION_START_PATTERN line then
      mkScan (skip_lines st) true (update_level (level st) line)
    else st
  else
    let level' := update_level (level st) line in
    if level' =? 0 then mkScan (skip_lines st) false level'
    else mkScan (skip_lines st ++ [lineno]) true level'.

(** [for lineno, line in enumerate(contents, start=lineno)] *)
Fixpoint scan_from (st : ScanState) (lineno : Z) (contents : list string) : ScanState :=
  match contents with
  | [] => st
  | line :: rest => scan_from (scan_line st lineno line) (lineno + 1) rest
  end.

Definition get_class_lines_in_file (contents : list string) : list Z :=
  if Nat.eqb (length contents) 0 then []
  else skip_lines (scan_from (mkScan [] false 0) 1 contents).

(** ** Data model *)

(** [ReformatType], the tag of a reformat segment. *)
Inductive ReformatType : Type := INSERTION | MODIFICATION | DELETION.

#[global] Instance ReformatType_eq_dec : EqDecision ReformatType.
Proof. solve_decision. Defined.

(** Modelled from the spec: the reformat segment of the models module, a
    line span of the patched contents, its tag and the replacement
    lines.  The attribute [end] is spelled [end_]. *)
Record ReformatSegment : Type := mkSegment {
  start : Z;
  end_ : Z;
  reformat_type : ReformatType;
  formatted_content : list string
}.

(** Modelled from the spec: a line range touched by the patch, 1-based
    and inclusive. *)
Module LineRange.
Record t : Type := mk { start : Z; end_ : Z }.
End LineRange.

(** Modelled from the spec: one file of a change.  [None] stands for an
    absent attribute. *)
Record FileChange : Type := mkFile {
  filename : string;
  base_contents : option (list string);
  patch_contents : option (list string);
  patch_segments : list LineRange.t;
  formatted_contents : option (list string)
}.

(** [f.formatted_contents = reformatted_content] *)
Definition set_formatted_contents (f : FileChange) (v : option (list string)) : FileChange :=
  mkFile (filename f) (base_contents f) (patch_contents f) (patch_segments f) v.

Record Change : Type := mkChange { files : list FileChange }.

(** Modelled from the spec: the comment range of the review server,
    built positionally as [CommentRange(start_line, start_char, end_line,
    end_char)]. *)
Record CommentRange : Type := mkCommentRange {
  start_line : Z;
  start_char : Z;
  end_line : Z;
  end_char : Z
}.

Module CommentInput.
Record t : Type := mk { message : string; range : CommentRange }.
End CommentInput.

(** Modelled from the spec: the notify directive of a review; the values
    are those of the review server, of which the code uses [OWNER]. *)
Inductive NotifyEnum : Type := NONE | OWNER | OWNER_REVIEWERS | ALL.

Module ReviewInput.
Record t : Type := mk {
  message : string;
  comments : gmap string (list CommentInput.t);
  labels : gmap string Z;
  notify : NotifyEnum
}.
End ReviewInput.

(** The collaborators whose code lives in other modules: the formatter
    ([run_clang_format], [None] meaning that nothing changes), the
    rendering of a patch segment as a formatter range
    ([segment.format_range()]) and the segment reducer behind the
    attribute [f.format_segments]. *)
Class Collaborators : Type := {
  FormatRange : Type;
  format_range : LineRange.t → FormatRange;
  run_clang_format : list string → list FormatRange → option (list string);
  format_segments : FileChange → list ReformatSegment
}.

(** What a run lets the outside observe: the records handed to the
    logger, one constructor per logging statement with the values
    interpolated into its text, and the calls of the formatter. *)
Inductive Event `{Collaborators} : Type :=
| info_ignoring (filename : string)
    (* "Ignoring %s because it does not seem to be a file that `clang-format` can handle" *)
| info_skipping_deleted (filename : string)
    (* "Skipping %s because the file is deleted in the patch" *)
| info_skipping_only_deletions (filename : string)
    (* "Skipping %s because the changes in the patch are only deletions" *)
| info_no_reformats (filename : string)
    (* "%s: no reformats" *)
| info_segments_reformatted (filename : string) (n : nat)
    (* "%s: %i segment(s) reformatted" *)
| warning_class_workaround (filename : string) (segment_lines_set : gset Z)
    (* "Class Workaround: [%s] skipped lines %s" *)
| call_run_clang_format (contents : list string) (segments : list FormatRange).

(** Exceptions the modelled statements can raise. *)
Inductive Exception : Type :=
| UnboundLocalError (name : string)
| TypeError (what : string).

Inductive result (A : Type) : Type :=
| Ok (a : A)
| Raise (e : Exception).
Arguments Ok {A} a.
Arguments Raise {A} e.

(** A [for] loop whose body may raise: the first exception ends it. *)
Fixpoint for_each {A S : Type} (body : S → A → result S) (st : S) (l : list A) : result S :=
  match l with
  | [] => Ok st
  | x :: l' =>
      match body st x with
      | Ok st' => for_each body st' l'
      | Raise e => Raise e
      end
  end.

(** ** The reformat orchestrator *)

Section Orchestrator.
Context `{Collaborators}.

(** The formatter call and what follows it: lines 55 to 60. *)
Definition format_file (f : FileChange) (contents : list string)
           (segments : list FormatRange) : FileChange * list Event :=
  let reformatted_content := run_clang_format contents segments in
  let f' := set_formatted_contents f reformatted_content in
  (f', [call_run_clang_format contents segments;
        match formatted_contents f' with
        | None => info_no_reformats (filename f')
        | Some _ => info_segments_reformatted (filename f') (length (format_segments f'))
        end]).

(** The body of the loop over [change.files]: the file as the
    iteration leaves it, and the events of the iteration. *)
Definition reformat_file (f : FileChange) : FileChange * list Event :=
  if negb (matches true EXTENSION_PATTERN (filename f)) then
    (f, [info_ignoring (filename f)])
  else
    match patch_contents f with
    | None => (f, [info_skipping_deleted (filename f)])
    | Some contents =>
        match base_contents f with
        | Some _ =>
            if Nat.eqb (length (patch_segments f)) 0 then
              (f, [info_skipping_only_deletions (filename f)])
            else
              format_file f contents (map format_range (patch_segments f))
        | None => format_file f contents []
        end
    end.

(** [for f in change.files: ...] *)
Fixpoint reformat_files (fs : list FileChange) : list FileChange * list Event :=
  match fs with
  | [] => ([], [])
  | f :: rest =>
      let '(f', evs) := reformat_file f in
      let '(rest', evs') := reformat_files rest in
      (f' :: rest', evs ++ evs')
  end.

End Orchestrator.

(** ** The comment mapper *)

Definition NL : string := String LF EmptyString.

(** [range(start, stop, 1)]: empty when [stop <= start]. *)
Definition range (start stop : Z) : list Z := seqZ start (stop - start).

(** The message of a comment on a deletion. *)
Definition removal_message : string :=
  "Suggestion from `haiku-format` is to remove this line/these lines.".

(** ["Suggestion from `haiku-format` (%s):\n```c++\n%s```"
       % (operation, "".join(segment.formatted_content))] *)
Definition suggestion_message (operation : string) (formatted_content : list string) : string :=
  "Suggestion from `haiku-format` (" +:+ operation +:+ "):" +:+ NL +:+
  "```c++" +:+ NL +:+ join formatted_content +:+ "```".

Definition no_changes_message : string :=
  "Experimental `haiku-format` bot: no formatting changes suggested for this commit.".

Definition some_changes_message : string :=
  "Experimental `haiku-format` bot: some formatting changes suggested." +:+ NL +:+
  "Note that this bot is " +:+
  "experimental and the suggestions may not be correct. There is a known issue with changes " +:+
  "in header files: `haiku-format` does not yet correctly output the column layout of the contents " +:+
  "of classes." +:+ NL +:+ NL +:+
  "You can see and apply the suggestions by running `haiku-format` in your local " +:+
  "repository. For example, if in your local checkout this change is applied to a local checkout, you " +:+
  "can use the following command to automatically reformat:" +:+ NL +:+
  "```" +:+ NL +:+ "git-haiku-format HEAD~" +:+ NL +:+ "```".

(** [comments.setdefault(filename, []).extend(new)] *)
Definition setdefault_extend (filename : string) (new : list CommentInput.t)
           (comments : gmap string (list CommentInput.t)) : gmap string (list CommentInput.t) :=
  <[filename := default [] (comments !! filename) ++ new]> comments.

Section Mapper.
Context `{Collaborators}.

(** The locals of [_change_to_review_input] that outlive an iteration:
    the dictionary [comments], the variable [operation] ([None] while
    it is unbound) and what went to the logger. *)
Record MapperState : Type := mkMapper {
  comments : gmap string (list CommentInput.t);
  operation : option string;
  trace : list Event
}.

(** The body of the loop over [f.format_segments]: lines 84 to 111. *)
Definition segment_body (filename : string) (skip_lines_set : gset Z)
           (st : MapperState) (segment : ReformatSegment) : result MapperState :=
  let '(end', operation') :=
    match reformat_type segment with
    | INSERTION => (start segment, Some "insert after")
    | MODIFICATION => (end_ segment, Some "change")
    | DELETION => (end_ segment, operation st)
    end in
  let segment_lines_set : gset Z := list_to_set (range (start segment) (end' + 1)) in
  if Nat.ltb 0 (size (skip_lines_set ∩ segment_lines_set)) then
    Ok (mkMapper (comments st) operation'
                 (trace st ++ [warning_class_workaround filename segment_lines_set]))
  else
    let comment_range := mkCommentRange (start segment) 0 end' 0 in
    let message :=
      if decide (reformat_type segment = DELETION) then Ok removal_message
      else
        match operation' with
        | None => Raise (UnboundLocalError "operation")
        | Some operation => Ok (suggestion_message operation (formatted_content segment))
        end in
    match message with
    | Raise e => Raise e
    | Ok message =>
        Ok (mkMapper
              (setdefault_extend filename [CommentInput.mk message comment_range] (comments st))
              operation' (trace st))
    end.

(** The body of the loop over [change.files]: lines 79 to 111. *)
Definition file_body (st : MapperState) (f : FileChange) : result MapperState :=
  if bool_decide (formatted_contents f = None) || Nat.eqb (length (format_segments f)) 0 then
    Ok st
  else
    match patch_contents f with
    | None => Raise (TypeError "object of type 'NoneType' has no len()")
    | Some contents =>
        let skip_lines_set : gset Z := list_to_set (get_class_lines_in_file contents) in
        for_each (segment_body (filename f) skip_lines_set) st (format_segments f)
    end.

(** The review payload, with the records the logger received. *)
Definition _change_to_review_input (change : Change) : result (ReviewInput.t * list Event) :=
  match for_each file_body (mkMapper ∅ None []) (files change) with
  | Raise e => Raise e
  | Ok st =>
      let '(message, labels) :=
        if Nat.eqb (size (comments st)) 0
        then (no_changes_message, ({[ "Haiku-Format" := 1 ]} : gmap string Z))
        else (some_changes_message, ({[ "Haiku-Format" := -1 ]} : gmap string Z)) in
      Ok (ReviewInput.mk message (comments st) labels OWNER, trace st)
  end.

(** [reformat_change] between the fetch of the change and the
    publication of the review: the files as the loop leaves them, the
    events of the loop, and the outcome of the comment mapper. *)
Definition reformat_change (change : Change)
  : Change * list Event * result (ReviewInput.t * list Event) :=
  let '(fs, evs) := reformat_files (files change) in
  let change' := mkChange fs in
  (change', evs, _change_to_review_input change').

End Mapper.

(** ** Derived notions used in the statements *)

(** The scanner's locals just before line [i + 1] (0-based index [i]) of
    [contents] is visited. *)
Definition state_before (contents : list string) (i : nat) : ScanState :=
  scan_from (mkScan [] false 0) 1 (take i contents).

(** The end line the comment mapper works with after its [match]
    statement. *)
Definition effective_end (segment : ReformatSegment) : Z :=
  match reformat_type segment with
  | INSERTION => start segment
  | MODIFICATION | DELETION => end_ segment
  end.

(** [set(range(segment.start, end + 1, 1))] *)
Definition segment_lines (segment : ReformatSegment) : gset Z :=
  list_to_set (range (start segment) (effective_end segment + 1)).

(** The test of line 93. *)
Definition suppressed (skip_lines_set : gset Z) (segment : ReformatSegment) : bool :=
  Nat.ltb 0 (size (skip_lines_set ∩ segment_lines segment)).

(** The comment built from a segment that is not suppressed. *)
Definition comment_of (segment : ReformatSegment) : CommentInput.t :=
  CommentInput.mk
    match reformat_type segment with
    | INSERTION => suggestion_message "insert after" (formatted_content segment)
    | MODIFICATION => suggestion_message "change" (formatted_content segment)
    | DELETION => removal_message
    end
    (mkCommentRange (start segment) 0 (effective_end segment) 0).

(** The calls of the formatter among the events of a run, in order, each
    with the contents and the target ranges it was given. *)
Definition formatter_calls `{Collaborators} (evs : list Event)
  : list (list string * list FormatRange) :=
  omap (λ e, match e with
             | call_run_clang_format contents segments => Some (contents, segments)
             | _ => None
             end) evs.


(** The supported extensions as the specification lists them. *)
Definition supported_extensions : list string :=
  ["cpp"; "cc"; "c++"; "cxx"; "cppm"; "ccm"; "cxxm"; "c++m"; "c"; "cl"; "h";
   "hh"; "hpp"; "hxx"; "m"; "mm"; "inc"; "js"; "ts"; "proto"; "protodevel";
   "java"; "cs"; "json"; "v"; "vh"; "sv"; "svh"].

(** [s.endswith(suffix)] *)
Fixpoint ends_with (suffix s : string) : bool :=
  String.eqb s suffix ||
  match s with
  | EmptyString => false
  | String _ s' => ends_with suffix s'
  end.

(** The allow-list in the specification's words: the name, lower-cased,
    ends with a dot and one of the supported extensions. *)
Definition has_supported_extension (name : string) : bool :=
  existsb (λ ext, ends_with (String "." ext) (lower_string name)) supported_extensions.

(** Removal of the literal word [w] from the front of [t], compared the
    way the matcher compares literals. *)
Fixpoint strip_word (ignorecase : bool) (w t : string) : option string :=
  match w with
  | EmptyString => Some t
  | String c w' =>
      match t with
      | EmptyString => None
      | String d t' => if lit_eqb ignorecase c d then strip_word ignorecase w' t' else None
      end
  end.

Section Contributions.
Context `{Collaborators}.

(** The guard of line 79, negated: the mapper looks at the segments of
    the file. *)
Definition considered (f : FileChange) : bool :=
  negb (bool_decide (formatted_contents f = None) ||
        Nat.eqb (length (format_segments f)) 0).

(** The class-region skip set of a file, from its patch contents. *)
Definition skip_set (f : FileChange) : gset Z :=
  list_to_set (get_class_lines_in_file (default [] (patch_contents f))).

(** The comments a file contributes: one per segment that is not
    suppressed, in the order of the segments. *)
Definition file_comments (f : FileChange) : list CommentInput.t :=
  if considered f then
    comment_of <$> filter (λ s, suppressed (skip_set f) s = false) (format_segments f)
  else [].

(** The warnings a file contributes: one per suppressed segment. *)
Definition file_warnings (f : FileChange) : list Event :=
  if considered f then
    (λ s, warning_class_workaround (filename f) (segment_lines s)) <$>
      filter (λ s, suppressed (skip_set f) s = true) (format_segments f)
  else [].

(** The comments of all the files of one name, in the order of the
    files. *)
Definition comments_for (name : string) (fs : list FileChange) : list CommentInput.t :=
  flat_map (λ f, if decide (filename f = name) then file_comments f else []) fs.

(** What the orchestrator guarantees of a file it hands to the mapper:
    formatted contents are only ever set on a file with patch
    contents. *)
Definition formatted_from_patch (f : FileChange) : Prop :=
  formatted_contents f ≠ None → patch_contents f ≠ None.

End Contributions.

(** ** A sample change

    Concrete collaborators and files on which the statements below are
    exercised: a formatter that knows one file, and a reducer that
    reports four segments for it. *)

Definition sample_patch : list string :=
  ["struct Foo {"; "int x;"; "};"; "int main()"; "{"; "return  0;"; ""; "}"].

Definition sample_formatted : list string :=
  ["struct Foo"; "{"; "int  x;"; "};"; "int main()"; "{"; "  int y;"; "return 0;"; "}"].

Definition sample_segments : list ReformatSegment :=
  [mkSegment 1 1 MODIFICATION ["struct Foo"; "{"];
   mkSegment 2 2 MODIFICATION ["int  x;"];
   mkSegment 5 6 INSERTION ["  int y;"];
   mkSegment 7 7 DELETION []].

Definition sample_collaborators : Collaborators := {|
  FormatRange := Z * Z;
  format_range r := (LineRange.start r, LineRange.end_ r);
  run_clang_format contents segments :=
    if decide (contents = sample_patch) then Some sample_formatted else None;
  format_segments f :=
    if decide (formatted_contents f = Some sample_formatted) then sample_segments else []
|}.

Definition sample_new : FileChange :=
  mkFile "src/Foo.cpp" None (Some sample_patch) [] None.

Definition sample_modified : FileChange :=
  mkFile "src/Bar.h" (Some ["struct Foo {"; "};"]) (Some sample_patch)
         [LineRange.mk 2 2; LineRange.mk 4 8] None.

Definition sample_deleted : FileChange :=
  mkFile "src/Old.cpp" (Some ["int old;"]) None [] None.

Definition sample_only_deletions : FileChange :=
  mkFile "src/Less.cpp" (Some ["int a;"; "int b;"]) (Some ["int a;"]) [] None.

Definition sample_ignored : FileChange :=
  mkFile "docs/README.md" None (Some ["# Title"]) [] None.

Definition sample_change : Change :=
  mkChange [sample_ignored; sample_deleted; sample_only_deletions; sample_new; sample_modified].

(** The file [sample_new] as the orchestrator leaves it, alone in a
    change. *)
Definition sample_formatted_change : Change :=
  mkChange [set_formatted_contents sample_new (Some sample_formatted)].

(** The payload and the logger records the mapper produces for
    [sample_formatted_change]. *)
Definition sample_review : ReviewInput.t :=
  ReviewInput.mk some_changes_message
    {[ "src/Foo.cpp" :=
         [comment_of (mkSegment 1 1 MODIFICATION ["struct Foo"; "{"]);
          comment_of (mkSegment 5 6 INSERTION ["  int y;"]);
          comment_of (mkSegment 7 7 DELETION [])] ]}
    {[ "Haiku-Format" := -1 ]} OWNER.

Definition sample_records : list (Event (H := sample_collaborators)) :=
  [warning_class_workaround "src/Foo.cpp" {[ 2 ]}].

(** ** Further notions and samples *)



(** The number of comments a payload holds, over all names. *)
Definition payload_size (comments : gmap string (list CommentInput.t)) : nat :=
  map_fold (λ _ cs n, length cs + n)%nat 0%nat comments.

(** Collaborators whose formatter never changes anything. *)
Definition quiet_collaborators : Collaborators := {|
  FormatRange := Z * Z;
  format_range r := (LineRange.start r, LineRange.end_ r);
  run_clang_format contents segments := None;
  format_segments f := []
|}.

(** A file with formatted contents whose patch contents are missing. *)
Definition sample_broken_change : Change :=
  mkChange [mkFile "src/Gone.cpp" (Some ["int gone;"]) None [] (Some sample_formatted)].

(** A formatted file without class or struct lines, alone in a change. *)
Definition sample_plain_change : Change :=
  mkChange [mkFile "src/main.cpp" None (Some ["int main()"; "{"; "return  0;"; "}"]) []
                   (Some sample_formatted)].

(** * Properties *)

(** ** The class-region detector *)

Section Detector.

Implicit Types (st : ScanState) (contents : list string) (line : string).

Lemma scan_from_app st n l1 l2 :
  scan_from st n (l1 ++ l2) = scan_from (scan_from st n l1) (n + Z.of_nat (length l1)) l2.
Proof.
  revert st n. induction l1 as [|line l1 IH]; intros st n; simpl.
  - by rewrite Z.add_0_r.
  - rewrite IH. f_equal. lia.
Qed.

Lemma state_before_S contents i line :
  contents !! i = Some line →
  state_before contents (S i) = scan_line (state_before contents i) (Z.of_nat i + 1) line.
Proof.
  intros Hi. unfold state_before.
  rewrite (take_S_r _ _ _ Hi), scan_from_app. simpl.
  rewrite length_take_le by (apply lookup_lt_Some in Hi; lia).
  f_equal. lia.
Qed.

Lemma get_class_lines_state_before contents :
  get_class_lines_in_file contents = skip_lines (state_before contents (length contents)).
Proof.
  unfold get_class_lines_in_file, state_before. rewrite firstn_all.
  by destruct contents.
Qed.

(** What one iteration does to the result list. *)
Lemma scan_line_skip_lines st n line :
  skip_lines (scan_line st n line) = skip_lines st ∨
  (in_class st = true ∧ skip_lines (scan_line st n line) = skip_lines st ++ [n]).
Proof.
  unfold scan_line. destruct (in_class st); simpl.
  - destruct (_ =? 0); simpl; auto.
  - left. repeat case_match; done.
Qed.

(** The result only grows, by line numbers of the lines visited, in
    increasing order. *)
Lemma scan_from_extends st n contents :
  ∃ extra,
    skip_lines (scan_from st n contents) = skip_lines st ++ extra ∧
    StronglySorted Z.lt extra ∧
    Forall (λ x, n ≤ x < n + Z.of_nat (length contents)) extra.
Proof.
  revert st n. induction contents as [|line contents IH]; intros st n; simpl.
  - exists []. rewrite app_nil_r. repeat split; constructor.
  - destruct (IH (scan_line st n line) (n + 1)) as (extra & Heq & Hsorted & Hall).
    destruct (scan_line_skip_lines st n line) as [Hsame|[_ Hadd]].
    + exists extra. rewrite Heq, Hsame. repeat split; [done|].
      eapply Forall_impl; [exact Hall|]. simpl. lia.
    + exists (n :: extra). rewrite Heq, Hadd, <- app_assoc. simpl.
      repeat split.
      * constructor; [done|]. eapply Forall_impl; [exact Hall|]. simpl. lia.
      * constructor; [lia|]. eapply Forall_impl; [exact Hall|]. simpl. lia.
Qed.

Lemma state_before_bound contents i :
  Forall (λ x, 1 ≤ x < 1 + Z.of_nat i) (skip_lines (state_before contents i)).
Proof.
  unfold state_before.
  destruct (scan_from_extends (mkScan [] false 0) 1 (take i contents))
    as (extra & -> & _ & Hall). simpl.
  eapply Forall_impl; [exact Hall|]. simpl. intros x. rewrite length_take. lia.
Qed.

(** A line number is in the result exactly when the iteration that
    visits the line appends it. *)
Lemma lineno_in_result contents i line :
  contents !! i = Some line →
  Z.of_nat i + 1 ∈ get_class_lines_in_file contents ↔
  Z.of_nat i + 1 ∈ skip_lines (state_before contents (S i)).
Proof.
  intros Hi. rewrite get_class_lines_state_before.
  unfold state_before at 1. rewrite firstn_all.
  rewrite <- (take_drop (S i) contents) at 1. rewrite scan_from_app.
  fold (state_before contents (S i)).
  destruct (scan_from_extends (state_before contents (S i))
              (1 + Z.of_nat (length (take (S i) contents))) (drop (S i) contents))
    as (extra & -> & _ & Hall).
  rewrite elem_of_app. split; [|by left].
  intros [Hin|Hin]; [done|]. exfalso.
  rewrite Forall_forall in Hall. apply Hall in Hin.
  rewrite length_take_le in Hin by (apply lookup_lt_Some in Hi; lia). lia.
Qed.

Lemma lineno_fresh contents i :
  Z.of_nat i + 1 ∉ skip_lines (state_before contents i).
Proof.
  intros Hin. pose proof (state_before_bound contents i) as Hall.
  rewrite Forall_forall in Hall. apply Hall in Hin. lia.
Qed.

End Detector.

(** C2, as amended.  The detector is one forward scan: the locals after a
    line depend only on the locals before it and on the line.  Outside a
    class a line is never added to the result, and it opens a class
    region, with the level moved by its braces, when it matches
    ^(class|struct) .*$ and does not match ^(class|struct) .*;$.  Inside
    a class every line moves the level by its braces; the line that
    brings it to 0 closes the region and is not added, every other line
    is added.  On struct Foo { / int x; / }; the result is [2]. *)
Theorem class_region_scan (contents : list string) (i : nat) (line : string) :
  contents !! i = Some line →
  let lineno := Z.of_nat i + 1 in
  let before := state_before contents i in
  let after := state_before contents (S i) in
  let level' := level before + count "{" line - count "}" line in
  after = scan_line before lineno line ∧
  (in_class before = false →
     (lineno ∉ get_class_lines_in_file contents) ∧
     (matches false _CLASS_DEFINITION_START_PATTERN line = true →
      matches false _CLASS_DECLARATION_PATTERN line = false →
      in_class after = true ∧ level after = level')) ∧
  (in_class before = true →
     level after = level' ∧
     (level' = 0 → in_class after = false ∧ (lineno ∉ get_class_lines_in_file contents)) ∧
     (level' ≠ 0 → in_class after = true ∧ lineno ∈ get_class_lines_in_file contents)) ∧
  get_class_lines_in_file ["struct Foo {"; "int x;"; "};"] = [2].
Proof.
  intros Hi lineno before after level'.
  assert (Hstep : after = scan_line before lineno line) by by apply state_before_S.
  pose proof (lineno_in_result contents i line Hi) as Hin.
  pose proof (lineno_fresh contents i) as Hfresh.
  fold lineno after in Hin. fold lineno before in Hfresh.
  split; [done|]. split; [|split; [|reflexivity]].
  - intros Hout. split.
    + rewrite Hin, Hstep.
      destruct (scan_line_skip_lines before lineno line) as [->|[? _]]; [done|congruence].
    + intros Hdef Hdecl. rewrite Hstep. unfold scan_line.
      by rewrite Hout, Hdecl, Hdef.
  - intros Hinside. rewrite Hin, Hstep. unfold scan_line. rewrite Hinside. simpl.
    fold (update_level (level before) line).
    change (update_level (level before) line) with level'.
    destruct (Z.eqb_spec level' 0) as [Hz|Hnz]; simpl.
    + split; [done|]. split; [done|]. intros ?; done.
    + split; [done|]. split; [done|]. intros _. split; [done|].
      apply elem_of_app. right. by apply list_elem_of_singleton.
Qed.

Lemma class_region_scan_witness :
  let contents := ["struct Foo {"; "int x;"; "};"] in
  in_class (state_before contents 1) = true ∧
  level (state_before contents 1) + count "{" "int x;" - count "}" "int x;" ≠ 0 ∧
  2 ∈ get_class_lines_in_file contents.
Proof.
  split; [reflexivity|]. split; [by vm_compute|].
  pose proof (class_region_scan ["struct Foo {"; "int x;"; "};"] 1 "int x;" eq_refl)
    as (_ & _ & Hin & _).
  destruct (Hin eq_refl) as (_ & _ & Hadd).
  apply Hadd. by vm_compute.
Defined.

(** C2 as it is worded, failing: a line that matches ^(class|struct) .*$
    and is met outside a class does not always open a class region.
    The forward declaration struct Foo; matches the pattern and leaves
    the scanner outside a class, so the two lines after it are not
    added. *)
Lemma class_line_need_not_open_region :
  ¬ (∀ (contents : list string) (i : nat) (line : string),
       contents !! i = Some line →
       in_class (state_before contents i) = false →
       matches false _CLASS_DEFINITION_START_PATTERN line = true →
       in_class (state_before contents (S i)) = true).
Proof.
  intros Hclaim.
  specialize (Hclaim ["struct Foo;"; "{"; "int x;"] 0%nat "struct Foo;" eq_refl eq_refl eq_refl).
  vm_compute in Hclaim. discriminate.
Qed.

(** C8.  A line that matches ^(class|struct) .*;$ and is met outside a
    class leaves the scanner's locals as they were, so that it opens no
    class region, and its number is not in the result.  On the single
    line struct Foo; the result is empty. *)
Theorem class_declaration_skipped (contents : list string) (i : nat) (line : string) :
  contents !! i = Some line →
  in_class (state_before contents i) = false →
  matches false _CLASS_DECLARATION_PATTERN line = true →
  state_before contents (S i) = state_before contents i ∧
  in_class (state_before contents (S i)) = false ∧
  (Z.of_nat i + 1 ∉ get_class_lines_in_file contents) ∧
  get_class_lines_in_file ["struct Foo;"] = [].
Proof.
  intros Hi Hout Hdecl.
  assert (Hsame : state_before contents (S i) = state_before contents i).
  { rewrite (state_before_S _ _ _ Hi). unfold scan_line. by rewrite Hout, Hdecl. }
  split; [done|]. split; [by rewrite Hsame|]. split; [|reflexivity].
  rewrite (lineno_in_result _ _ _ Hi), Hsame. apply lineno_fresh.
Qed.

Lemma class_declaration_skipped_witness :
  let contents := ["int a;"; "class Bar;"; "{"; "int b;"] in
  state_before contents 2 = state_before contents 1 ∧
  (2 ∉ get_class_lines_in_file contents).
Proof.
  pose proof (class_declaration_skipped ["int a;"; "class Bar;"; "{"; "int b;"] 1
                "class Bar;" eq_refl eq_refl eq_refl) as (Hsame & _ & Hnotin & _).
  split; [exact Hsame|exact Hnotin].
Defined.

(** C10.  The result of the detector is strictly increasing, each of its
    line numbers lies between 2 and the number of lines; so line 1 is
    never in it and no number occurs twice.  The empty input gives the
    empty list. *)
Theorem class_lines_sorted_bounded (contents : list string) :
  StronglySorted Z.lt (get_class_lines_in_file contents) ∧
  Forall (λ n, 2 ≤ n ≤ Z.of_nat (length contents)) (get_class_lines_in_file contents) ∧
  (1 ∉ get_class_lines_in_file contents) ∧
  NoDup (get_class_lines_in_file contents) ∧
  get_class_lines_in_file [] = [].
Proof.
  assert (Hmain : StronglySorted Z.lt (get_class_lines_in_file contents) ∧
                  Forall (λ n, 2 ≤ n ≤ Z.of_nat (length contents))
                         (get_class_lines_in_file contents)).
  { destruct contents as [|line rest]; [split; constructor|].
    unfold get_class_lines_in_file. cbn [length Nat.eqb scan_from].
    change (1 + 1) with 2.
    destruct (scan_from_extends (scan_line (mkScan [] false 0) 1 line) 2 rest)
      as (extra & -> & Hsorted & Hall).
    destruct (scan_line_skip_lines (mkScan [] false 0) 1 line) as [->|[? _]]; [|done].
    simpl. split; [done|].
    eapply Forall_impl; [exact Hall|]. simpl. lia. }
  destruct Hmain as [Hsorted Hall].
  split; [done|]. split; [done|]. split; [|split; [|reflexivity]].
  - intros Hin. rewrite Forall_forall in Hall. apply Hall in Hin. lia.
  - clear Hall. induction Hsorted as [|x l _ IH Hlt]; constructor; [|done].
    intros Hin. rewrite Forall_forall in Hlt. apply Hlt in Hin. lia.
Qed.

(** ** The extension pattern and the list of extensions *)

Section PatternProperties.

Implicit Types (k : nat → string → bool) (w t : string).

Lemma run_Str ic w k pos t :
  run ic (Str w) k pos t =
  match strip_word ic w t with
  | Some rest => k (pos + String.length w)%nat rest
  | None => false
  end.
Proof.
  revert k pos t. induction w as [|c w IH]; intros k pos t; simpl.
  - by rewrite Nat.add_0_r.
  - destruct t as [|d t]; [done|].
    destruct (lit_eqb ic c d); simpl; [|done].
    rewrite IH. by rewrite Nat.add_succ_r.
Qed.


Lemma count_nonneg c t : 0 ≤ count c t.
Proof. induction t as [|d t IH]; simpl; [done|]. destruct (Ascii.eqb d c); lia. Qed.

Lemma count_cons_0 c d t :
  count c (String d t) = 0 → Ascii.eqb d c = false ∧ count c t = 0.
Proof.
  simpl. pose proof (count_nonneg c t). destruct (Ascii.eqb d c); [lia|]. split; [done|lia].
Qed.

Lemma lower_LF d : Ascii.eqb d LF = false → Ascii.eqb (lower d) LF = false.
Proof.
  intros Hd. destruct (Ascii.eqb_spec (lower d) LF) as [Heq|]; [|done].
  exfalso. revert Hd Heq.
  destruct d as [[] [] [] [] [] [] [] []]; vm_compute; congruence.
Qed.











(** The pattern on a few names. *)
Example extension_pattern_examples :
  matches true EXTENSION_PATTERN "src/kits/Foo.CPP" = true ∧
  matches true EXTENSION_PATTERN "a.svh" = true ∧
  matches true EXTENSION_PATTERN "a.s" = false ∧
  matches true EXTENSION_PATTERN "a.cpp.orig" = false ∧
  matches true EXTENSION_PATTERN "Makefile" = false.
Proof. repeat split; reflexivity. Qed.

(** Where the pattern and the suffix test part: [$] accepts one line
    feed after the extension, and [.] does not run over a line feed
    before the dot. *)
Example extension_pattern_line_feeds :
  matches true EXTENSION_PATTERN ("a.cpp" +:+ NL) = true ∧
  has_supported_extension ("a.cpp" +:+ NL) = false ∧
  matches true EXTENSION_PATTERN ("a" +:+ NL +:+ "b.cpp") = false ∧
  has_supported_extension ("a" +:+ NL +:+ "b.cpp") = true.
Proof. repeat split; reflexivity. Qed.

(** Lines that carry their line feed are classified like lines that do
    not. *)
Example class_lines_with_line_feeds :
  get_class_lines_in_file
    ["class Foo" +:+ NL; "{" +:+ NL; "int x;" +:+ NL; "};" +:+ NL; "struct Bar;" +:+ NL] =
  [2; 3].
Proof. reflexivity. Qed.

End PatternProperties.

(** ** The reformat orchestrator *)

Section OrchestratorProperties.
Context `{Collaborators}.

Implicit Types (f : FileChange) (fs : list FileChange).

Lemma reformat_files_cons f fs :
  reformat_files (f :: fs) =
  ((reformat_file f).1 :: (reformat_files fs).1,
   (reformat_file f).2 ++ (reformat_files fs).2).
Proof. simpl. by destruct (reformat_file f), (reformat_files fs). Qed.

Lemma reformat_files_app fs1 fs2 :
  reformat_files (fs1 ++ fs2) =
  ((reformat_files fs1).1 ++ (reformat_files fs2).1,
   (reformat_files fs1).2 ++ (reformat_files fs2).2).
Proof.
  induction fs1 as [|f fs1 IH].
  - simpl. by destruct (reformat_files fs2).
  - rewrite <- app_comm_cons, !reformat_files_cons, IH. simpl.
    by rewrite app_assoc.
Qed.

Lemma reformat_files_length fs : length (reformat_files fs).1 = length fs.
Proof.
  induction fs as [|f fs IH]; [done|].
  rewrite reformat_files_cons. simpl. by rewrite IH.
Qed.

(** The loop handles the files one by one, in order: the iteration of
    the file at index [i] sits between those of the files before and
    after it, and its outcome is at index [i]. *)
Lemma reformat_files_at fs i f :
  fs !! i = Some f →
  (reformat_files fs).1 !! i = Some (reformat_file f).1 ∧
  (reformat_files fs).2 =
    (reformat_files (take i fs)).2 ++ (reformat_file f).2 ++ (reformat_files (drop (S i) fs)).2.
Proof.
  intros Hi.
  rewrite <- (take_drop_middle fs i f Hi) at 1 2.
  rewrite reformat_files_app, reformat_files_cons. simpl. split; [|done].
  rewrite lookup_app_r; rewrite reformat_files_length, length_take_le;
    try (apply lookup_lt_Some in Hi; lia).
  by rewrite Nat.sub_diag.
Qed.

Lemma formatter_calls_app (evs1 evs2 : list Event) :
  formatter_calls (evs1 ++ evs2) = formatter_calls evs1 ++ formatter_calls evs2.
Proof. apply omap_app. Qed.


Lemma reformat_file_skips f :
  patch_contents f = None ∨ (base_contents f ≠ None ∧ patch_segments f = []) →
  (reformat_file f).1 = f ∧ formatter_calls (reformat_file f).2 = [].
Proof.
  intros Hskip. unfold reformat_file.
  destruct (matches true EXTENSION_PATTERN (filename f)); simpl; [|done].
  destruct Hskip as [->|[Hbase Hsegs]]; [done|].
  destruct (patch_contents f); [|done].
  destruct (base_contents f); [|done].
  by rewrite Hsegs.
Qed.

Lemma format_file_calls f contents segments :
  (format_file f contents segments).1 =
    set_formatted_contents f (run_clang_format contents segments) ∧
  formatter_calls (format_file f contents segments).2 = [(contents, segments)].
Proof.
  unfold format_file. simpl. split; [done|].
  by destruct (run_clang_format contents segments).
Qed.

(** A file the mapper meets without formatted contents adds nothing. *)
Lemma file_body_unformatted (st : MapperState) f :
  formatted_contents f = None → file_body st f = Ok st.
Proof. intros Hnone. unfold file_body. by rewrite bool_decide_eq_true_2. Qed.

End OrchestratorProperties.

(** ** The comment mapper *)

Section MapperProperties.
Context `{Collaborators}.

Implicit Types (st : MapperState) (f : FileChange) (segment : ReformatSegment)
         (skip : gset Z) (name : string).

Lemma suppressed_true skip segment :
  suppressed skip segment = true ↔ skip ∩ segment_lines segment ≠ ∅.
Proof.
  unfold suppressed. rewrite Nat.ltb_lt.
  rewrite <- (leibniz_equiv_iff (skip ∩ segment_lines segment) ∅).
  rewrite <- size_non_empty_iff. lia.
Qed.

Lemma suppressed_false skip segment :
  suppressed skip segment = false ↔ skip ∩ segment_lines segment = ∅.
Proof.
  rewrite <- not_true_iff_false, suppressed_true.
  destruct (decide (skip ∩ segment_lines segment = ∅)); naive_solver.
Qed.

(** One iteration over a segment never raises, and does one of two
    things. *)
Lemma segment_body_spec name skip st segment :
  segment_body name skip st segment =
  Ok (mkMapper
        (if suppressed skip segment then comments st
         else setdefault_extend name [comment_of segment] (comments st))
        (match reformat_type segment with
         | INSERTION => Some "insert after"
         | MODIFICATION => Some "change"
         | DELETION => operation st
         end)
        (trace st ++
         if suppressed skip segment
         then [warning_class_workaround name (segment_lines segment)] else [])).
Proof.
  unfold segment_body, suppressed, segment_lines, comment_of, effective_end.
  destruct (reformat_type segment); simpl;
    destruct (Nat.ltb 0 _); simpl; by rewrite ?app_nil_r.
Qed.

Lemma setdefault_extend_lookup name new (m : gmap string (list CommentInput.t)) k :
  setdefault_extend name new m !! k =
  if decide (k = name) then Some (default [] (m !! k) ++ new) else m !! k.
Proof.
  unfold setdefault_extend. destruct (decide (k = name)) as [->|Hne].
  - by rewrite lookup_insert_eq.
  - by rewrite lookup_insert_ne.
Qed.

(** The loop over the segments of one file. *)
Lemma segments_loop name skip segments st :
  ∃ st', for_each (segment_body name skip) st segments = Ok st' ∧
    (∀ k, comments st' !! k =
          if decide (k = name ∧
                     comment_of <$> filter (λ s, suppressed skip s = false) segments ≠ [])
          then Some (default [] (comments st !! k) ++
                     (comment_of <$> filter (λ s, suppressed skip s = false) segments))
          else comments st !! k) ∧
    trace st' = trace st ++
      ((λ s, warning_class_workaround name (segment_lines s)) <$>
         filter (λ s, suppressed skip s = true) segments).
Proof.
  revert st. induction segments as [|segment segments IH]; intros st.
  - exists st. simpl. split; [done|]. split; [|by rewrite app_nil_r].
    intros k. rewrite decide_False; [done|]. by intros [_ ?].
  - cbn [for_each]. rewrite segment_body_spec.
    destruct (IH (mkMapper
        (if suppressed skip segment then comments st
         else setdefault_extend name [comment_of segment] (comments st))
        (match reformat_type segment with
         | INSERTION => Some "insert after"
         | MODIFICATION => Some "change"
         | DELETION => operation st
         end)
        (trace st ++
         if suppressed skip segment
         then [warning_class_workaround name (segment_lines segment)] else [])))
      as (st' & Hrun & Hcomments & Htrace).
    exists st'. split; [done|]. simpl in Hcomments, Htrace.
    rewrite !filter_cons.
    destruct (suppressed skip segment) eqn:Hs; simpl.
    + split; [done|]. by rewrite Htrace, <- app_assoc.
    + split; [|by rewrite Htrace, app_nil_r].
      intros k. rewrite Hcomments, setdefault_extend_lookup.
      destruct (decide (k = name)) as [->|Hne].
      * rewrite (decide_True (P := name = name ∧ _ :: _ ≠ [])) by done.
        case_decide as Hnew.
        -- simpl. by rewrite <- app_assoc.
        -- assert (filter (λ s, suppressed skip s = false) segments = []) as ->;
             [|done].
           destruct (filter _ segments) eqn:?; [done|]. naive_solver.
      * rewrite !decide_False; [done|by intros [? _]..].
Qed.

(** An iteration over a file either raises, on a file with formatted
    contents and segments but without patch contents, or adds the
    comments and the warnings of the file. *)
Lemma file_body_cases st f :
  (considered f = true ∧ patch_contents f = None ∧ ∃ e, file_body st f = Raise e) ∨
  (∃ st', file_body st f = Ok st' ∧
     (considered f = true → patch_contents f ≠ None) ∧
     (∀ k, comments st' !! k =
           if decide (k = filename f ∧ file_comments f ≠ [])
           then Some (default [] (comments st !! k) ++ file_comments f)
           else comments st !! k) ∧
     trace st' = trace st ++ file_warnings f).
Proof.
  unfold file_body, file_comments, file_warnings, skip_set, considered.
  destruct (bool_decide (formatted_contents f = None) || _); simpl.
  - right. exists st. split; [done|]. split; [done|]. split; [|by rewrite app_nil_r].
    intros k. rewrite decide_False; [done|]. by intros [_ ?].
  - destruct (patch_contents f) as [contents|]; simpl.
    + right.
      destruct (segments_loop (filename f) (list_to_set (get_class_lines_in_file contents))
                  (format_segments f) st) as (st' & Hrun & Hcomments & Htrace).
      exists st'. done.
    + left. eauto.
Qed.

Lemma comments_for_cons name f fs :
  comments_for name (f :: fs) =
  (if decide (filename f = name) then file_comments f else []) ++ comments_for name fs.
Proof. done. Qed.

(** The loop over the files of a change. *)
Lemma files_loop fs st :
  (∃ e f, for_each file_body st fs = Raise e ∧
          f ∈ fs ∧ considered f = true ∧ patch_contents f = None) ∨
  (∃ st', for_each file_body st fs = Ok st' ∧
     (∀ f, f ∈ fs → considered f = true → patch_contents f ≠ None) ∧
     (∀ k, comments st' !! k =
           if decide (comments_for k fs ≠ [])
           then Some (default [] (comments st !! k) ++ comments_for k fs)
           else comments st !! k) ∧
     trace st' = trace st ++ flat_map file_warnings fs).
Proof.
  revert st. induction fs as [|f fs IH]; intros st.
  - right. exists st. simpl. split; [done|]. split; [by intros ? ?%elem_of_nil|].
    split; [|by rewrite app_nil_r]. done.
  - cbn [for_each].
    destruct (file_body_cases st f)
      as [(Hc & Hp & e & ->)|(st1 & -> & Hpatch & Hcomments & Htrace)].
    { left. exists e, f. split; [done|]. split; [apply elem_of_cons; by left|done]. }
    destruct (IH st1) as [(e & g & -> & Hg & Hc & Hp)|(st' & -> & Hall & Hcomments' & Htrace')].
    { left. exists e, g. split; [done|]. split; [apply elem_of_cons; by right|done]. }
    right. exists st'. split; [done|]. split; [|split].
    + intros g [->|Hg]%elem_of_cons; auto.
    + intros k. rewrite Hcomments', Hcomments, comments_for_cons.
      destruct (decide (filename f = k)) as [<-|Hne].
      * destruct (file_comments f) as [|c cs] eqn:Hfc.
        -- rewrite (decide_False (P := filename f = filename f ∧ _)) by (by intros [_ ?]).
           done.
        -- rewrite (decide_True (P := filename f = filename f ∧ _)) by done.
           rewrite (decide_True (P := (c :: cs) ++ _ ≠ [])) by done.
           case_decide as Hrest; simpl.
           ++ by rewrite <- app_assoc.
           ++ by rewrite Hrest, app_nil_r.
      * rewrite (decide_False (P := k = filename f ∧ _)) by (by intros [? _]).
        done.
    + rewrite Htrace', Htrace, <- app_assoc. done.
Qed.

Lemma considered_formatted f :
  considered f = true → formatted_contents f ≠ None.
Proof.
  unfold considered. intros Hc Hnone.
  by rewrite bool_decide_eq_true_2 in Hc.
Qed.

Lemma considered_intro f segment :
  formatted_contents f ≠ None → segment ∈ format_segments f → considered f = true.
Proof.
  unfold considered. intros Hsome Hin.
  rewrite bool_decide_eq_false_2 by done.
  by destruct (format_segments f); [apply elem_of_nil in Hin|].
Qed.

(** The comment mapper as a whole: it raises only on a file with
    formatted contents and no patch contents; otherwise the payload
    holds, under each name, the comments of the files of that name,
    the logger received the warnings of the files, and the verdict
    follows from whether any comment exists. *)
Lemma mapper_cases (change : Change) :
  (∃ e f, _change_to_review_input change = Raise e ∧
          f ∈ files change ∧ considered f = true ∧ patch_contents f = None) ∨
  (∃ ri evs, _change_to_review_input change = Ok (ri, evs) ∧
     (∀ f, f ∈ files change → considered f = true → patch_contents f ≠ None) ∧
     (∀ k, ReviewInput.comments ri !! k =
           if decide (comments_for k (files change) ≠ [])
           then Some (comments_for k (files change)) else None) ∧
     evs = flat_map file_warnings (files change) ∧
     ReviewInput.notify ri = OWNER ∧
     ((ReviewInput.comments ri = ∅ ∧
       ReviewInput.message ri = no_changes_message ∧
       ReviewInput.labels ri = {[ "Haiku-Format" := 1 ]}) ∨
      (ReviewInput.comments ri ≠ ∅ ∧
       ReviewInput.message ri = some_changes_message ∧
       ReviewInput.labels ri = {[ "Haiku-Format" := -1 ]}))).
Proof.
  unfold _change_to_review_input.
  destruct (files_loop (files change) (mkMapper ∅ None []))
    as [(e & f & -> & Hf)|(st' & -> & Hall & Hcomments & Htrace)].
  { left. by exists e, f. }
  right. simpl in Hcomments, Htrace.
  destruct (Nat.eqb_spec (size (comments st')) 0) as [Hsize|Hsize];
    eexists _, _; (split; [reflexivity|]); simpl;
    (split; [done|]); (split; [|split; [done|split; [done|]]]).
  - intros k. rewrite Hcomments, lookup_empty. done.
  - left. by apply map_size_empty_iff in Hsize.
  - intros k. rewrite Hcomments, lookup_empty. done.
  - right. by apply map_size_non_empty_iff in Hsize.
Qed.

Lemma mapper_total (change : Change) :
  Forall formatted_from_patch (files change) →
  ∃ ri evs, _change_to_review_input change = Ok (ri, evs).
Proof.
  intros Hwf. destruct (mapper_cases change) as [(e & f & _ & Hf & Hc & Hp)|(ri & evs & Hok & _)].
  - exfalso. rewrite Forall_forall in Hwf.
    apply (Hwf f Hf); [by apply considered_formatted|done].
  - eauto.
Qed.

Lemma mapper_ok (change : Change) ri evs :
  _change_to_review_input change = Ok (ri, evs) →
  (∀ f, f ∈ files change → considered f = true → patch_contents f ≠ None) ∧
  (∀ k, ReviewInput.comments ri !!! k = comments_for k (files change)) ∧
  evs = flat_map file_warnings (files change) ∧
  ReviewInput.notify ri = OWNER ∧
  ((ReviewInput.comments ri = ∅ ∧
    ReviewInput.message ri = no_changes_message ∧
    ReviewInput.labels ri = {[ "Haiku-Format" := 1 ]}) ∨
   (ReviewInput.comments ri ≠ ∅ ∧
    ReviewInput.message ri = some_changes_message ∧
    ReviewInput.labels ri = {[ "Haiku-Format" := -1 ]})).
Proof.
  intros Hok.
  destruct (mapper_cases change)
    as [(e & f & Hraise & _)|(ri' & evs' & Hok' & Hall & Hcomments & Hrest)];
    [congruence|].
  rewrite Hok in Hok'. injection Hok' as <- <-.
  split; [done|]. split; [|done].
  intros k. rewrite lookup_total_alt, Hcomments.
  case_decide as Hnew; [done|]. simpl. by destruct (comments_for k (files change)).
Qed.

(** Membership in what a file, and a name, contribute. *)
Lemma file_comments_elem f segment :
  formatted_contents f ≠ None → segment ∈ format_segments f →
  suppressed (skip_set f) segment = false →
  comment_of segment ∈ file_comments f.
Proof.
  intros Hsome Hin Hs. unfold file_comments.
  rewrite (considered_intro f segment Hsome Hin).
  apply list_elem_of_fmap. exists segment. split; [done|].
  by apply list_elem_of_filter.
Qed.

Lemma file_warnings_elem f segment :
  formatted_contents f ≠ None → segment ∈ format_segments f →
  suppressed (skip_set f) segment = true →
  warning_class_workaround (filename f) (segment_lines segment) ∈ file_warnings f.
Proof.
  intros Hsome Hin Hs. unfold file_warnings.
  rewrite (considered_intro f segment Hsome Hin).
  apply (list_elem_of_fmap_2 (λ s, warning_class_workaround (filename f) (segment_lines s))).
  by apply list_elem_of_filter.
Qed.

Lemma comments_for_elem f fs c :
  f ∈ fs → c ∈ file_comments f → c ∈ comments_for (filename f) fs.
Proof.
  intros Hf Hc. unfold comments_for. apply list_elem_of_In, in_flat_map.
  exists f. split; [by apply list_elem_of_In|].
  rewrite decide_True by done. by apply list_elem_of_In.
Qed.

Lemma flat_map_warnings_elem f fs (e : Event) :
  f ∈ fs → e ∈ file_warnings f → e ∈ flat_map file_warnings fs.
Proof.
  intros Hf He. apply list_elem_of_In, in_flat_map.
  exists f. split; by apply list_elem_of_In.
Qed.
Lemma format_file_formatted_from_patch f contents segments :
  patch_contents f = Some contents →
  formatted_from_patch (format_file f contents segments).1.
Proof. intros Hp _. simpl. by rewrite Hp. Qed.

Lemma reformat_file_formatted_from_patch f :
  formatted_from_patch f → formatted_from_patch (reformat_file f).1.
Proof.
  intros Hwf. unfold reformat_file.
  destruct (negb _); [done|].
  destruct (patch_contents f) as [contents|] eqn:Hp; [|done].
  destruct (base_contents f); [destruct (Nat.eqb _ _); [done|]|];
    by apply format_file_formatted_from_patch.
Qed.

Lemma reformat_files_formatted_from_patch fs :
  Forall formatted_from_patch fs → Forall formatted_from_patch (reformat_files fs).1.
Proof.
  induction 1 as [|f fs Hf _ IH]; [constructor|].
  rewrite reformat_files_cons. simpl. constructor; [|done].
  by apply reformat_file_formatted_from_patch.
Qed.

Lemma skip_set_patch f contents :
  patch_contents f = Some contents →
  skip_set f = list_to_set (get_class_lines_in_file contents).
Proof. intros Hp. unfold skip_set. by rewrite Hp. Qed.

End MapperProperties.


(** C6.  A file the patch deletes (no patch contents), and a modified
    file (base contents present) whose patch segments are empty, is
    left as it is by its iteration, which calls no formatter: the calls
    of the whole run are those of the other files, and the formatted
    contents of the file are what they were, unset if they were
    unset. *)
Theorem deleted_or_deletion_only_not_formatted `{Collaborators}
        (change : Change) (i : nat) (f : FileChange) :
  files change !! i = Some f →
  patch_contents f = None ∨ (base_contents f ≠ None ∧ patch_segments f = []) →
  (reformat_file f).1 = f ∧
  formatter_calls (reformat_file f).2 = [] ∧
  (reformat_files (files change)).1 !! i = Some f ∧
  formatter_calls (reformat_files (files change)).2 =
    formatter_calls (reformat_files (take i (files change))).2 ++
    formatter_calls (reformat_files (drop (S i) (files change))).2 ∧
  (formatted_contents f = None →
   formatted_contents <$> (reformat_files (files change)).1 !! i = Some None).
Proof.
  intros Hi Hskip.
  destruct (reformat_file_skips f Hskip) as [Hsame Hcalls].
  destruct (reformat_files_at _ _ _ Hi) as [Hout Hevs].
  rewrite Hsame in Hout.
  split; [done|]. split; [done|]. split; [done|]. split.
  - rewrite Hevs, !formatter_calls_app, Hcalls. done.
  - intros Hnone. by rewrite Hout; simpl; rewrite Hnone.
Qed.

(** C7.  For a file with a supported extension and patch contents: when
    it is newly added (no base contents) the formatter is called once,
    with the patch contents and the empty list of target ranges; when
    it is modified with a non-empty list of patch segments the formatter
    is called once, with the patch contents and the ranges of the patch
    segments in order.  In both cases the outcome of the call becomes
    the formatted contents of the file, and the call sits in the run
    between the calls of the files before and after. *)
Theorem formatter_target_ranges `{Collaborators}
        (change : Change) (i : nat) (f : FileChange) (contents : list string) :
  files change !! i = Some f →
  matches true EXTENSION_PATTERN (filename f) = true →
  patch_contents f = Some contents →
  base_contents f = None ∨ patch_segments f ≠ [] →
  let segments :=
    match base_contents f with
    | None => []
    | Some _ => map format_range (patch_segments f)
    end in
  formatter_calls (reformat_file f).2 = [(contents, segments)] ∧
  (reformat_file f).1 = set_formatted_contents f (run_clang_format contents segments) ∧
  (reformat_files (files change)).1 !! i =
    Some (set_formatted_contents f (run_clang_format contents segments)) ∧
  formatter_calls (reformat_files (files change)).2 =
    formatter_calls (reformat_files (take i (files change))).2 ++
    [(contents, segments)] ++
    formatter_calls (reformat_files (drop (S i) (files change))).2.
Proof.
  intros Hi Hext Hpatch Heligible segments.
  assert (Hfile : reformat_file f = format_file f contents segments).
  { unfold reformat_file, segments. rewrite Hext, Hpatch. simpl.
    destruct (base_contents f); [|done].
    destruct Heligible as [|Hsegs]; [done|].
    by destruct (patch_segments f). }
  destruct (format_file_calls f contents segments) as [Hout Hcalls].
  destruct (reformat_files_at _ _ _ Hi) as [Hlookup Hevs].
  rewrite Hfile in *.
  split; [done|]. split; [done|]. split; [by rewrite Hlookup, Hout|].
  by rewrite Hevs, !formatter_calls_app, Hcalls.
Qed.


Lemma deleted_or_deletion_only_not_formatted_witness :
  formatter_calls (reformat_file (H := sample_collaborators) sample_deleted).2 = [] ∧
  formatter_calls (reformat_file (H := sample_collaborators) sample_only_deletions).2 = [].
Proof.
  split.
  - apply (deleted_or_deletion_only_not_formatted (H := sample_collaborators)
             sample_change 1 sample_deleted eq_refl (or_introl eq_refl)).
  - apply (deleted_or_deletion_only_not_formatted (H := sample_collaborators)
             sample_change 2 sample_only_deletions eq_refl).
    right. split; [discriminate|reflexivity].
Defined.

Lemma formatter_target_ranges_witness :
  formatter_calls (reformat_file (H := sample_collaborators) sample_new).2 =
    [(sample_patch, [])] ∧
  formatter_calls (reformat_file (H := sample_collaborators) sample_modified).2 =
    [(sample_patch, [(2, 2); (4, 8)])].
Proof.
  split.
  - apply (formatter_target_ranges (H := sample_collaborators)
             sample_change 3 sample_new sample_patch eq_refl eq_refl eq_refl
             (or_introl eq_refl)).
  - apply (formatter_target_ranges (H := sample_collaborators)
             sample_change 4 sample_modified sample_patch eq_refl eq_refl eq_refl).
    right. discriminate.
Defined.

Section MapperClaims.
Context `{Collaborators}.

Lemma effective_end_match (segment : ReformatSegment) :
  match reformat_type segment with
  | INSERTION => start segment
  | _ => end_ segment
  end = effective_end segment.
Proof. unfold effective_end. by destruct (reformat_type segment). Qed.

(** The suppression test of a segment of a file, through the sets the
    statements spell out. *)
Lemma suppressed_in_file (f : FileChange) (contents : list string)
      (segment : ReformatSegment) :
  patch_contents f = Some contents →
  suppressed (skip_set f) segment = true ↔
  list_to_set (get_class_lines_in_file contents) ∩
    list_to_set (range (start segment)
                   (match reformat_type segment with
                    | INSERTION => start segment
                    | _ => end_ segment
                    end + 1)) ≠ (∅ : gset Z).
Proof.
  intros Hp. rewrite suppressed_true, (skip_set_patch f contents Hp).
  unfold segment_lines. by rewrite effective_end_match.
Qed.

End MapperClaims.

(** C1.  In a file with formatted contents, a segment whose line set
    start..end' (end' the start for an insertion and the end otherwise)
    meets the skip set computed from the patch contents of the file is
    discarded: its iteration leaves the comments as they are and logs a
    warning with the name of the file and the line set.  The mapper
    returns a payload whenever the formatted files of the change have
    patch contents; whenever it returns one, the warning is among the
    records of the run and the comments under the name of the file are
    those of the segments that are not suppressed, of which this one is
    none.  Over struct Foo { / int x; / }; a modification of lines 2-2
    is discarded and a modification of line 1 alone is kept. *)
Theorem class_region_suppression `{Collaborators} (change : Change)
        (f : FileChange) (contents : list string) (segment : ReformatSegment) :
  f ∈ files change →
  formatted_contents f ≠ None →
  patch_contents f = Some contents →
  segment ∈ format_segments f →
  let end' := match reformat_type segment with
              | INSERTION => start segment
              | _ => end_ segment
              end in
  let segment_lines_set : gset Z := list_to_set (range (start segment) (end' + 1)) in
  let skip_lines_set : gset Z := list_to_set (get_class_lines_in_file contents) in
  skip_lines_set ∩ segment_lines_set ≠ ∅ →
  (∀ st, ∃ operation',
     segment_body (filename f) skip_lines_set st segment =
     Ok (mkMapper (comments st) operation'
           (trace st ++ [warning_class_workaround (filename f) segment_lines_set]))) ∧
  (Forall formatted_from_patch (files change) →
   ∃ ri evs, _change_to_review_input change = Ok (ri, evs)) ∧
  (∀ ri evs,
     _change_to_review_input change = Ok (ri, evs) →
     warning_class_workaround (filename f) segment_lines_set ∈ evs ∧
     ReviewInput.comments ri !!! filename f = comments_for (filename f) (files change)) ∧
  (segment ∉ filter (λ s, suppressed (skip_set f) s = false) (format_segments f)) ∧
  (∀ name st fc,
     let skip : gset Z :=
       list_to_set (get_class_lines_in_file ["struct Foo {"; "int x;"; "};"]) in
     segment_body name skip st (mkSegment 2 2 MODIFICATION fc) =
       Ok (mkMapper (comments st) (Some "change")
             (trace st ++ [warning_class_workaround name {[ 2 ]}])) ∧
     segment_body name skip st (mkSegment 1 1 MODIFICATION fc) =
       Ok (mkMapper
             (setdefault_extend name
                [CommentInput.mk (suggestion_message "change" fc) (mkCommentRange 1 0 1 0)]
                (comments st))
             (Some "change") (trace st))).
Proof.
  intros Hf Hsome Hp Hin end' segment_lines_set skip_lines_set Hoverlap.
  assert (Hs : suppressed (skip_set f) segment = true)
    by by apply (suppressed_in_file f contents segment Hp).
  assert (Hlines : segment_lines segment = segment_lines_set)
    by (unfold segment_lines; by rewrite <- effective_end_match).
  split; [|split; [apply mapper_total|split; [|split]]].
  - intros st. rewrite segment_body_spec. unfold skip_lines_set.
    rewrite <- (skip_set_patch f contents Hp), Hs, Hlines. eauto.
  - intros ri evs Hok.
    destruct (mapper_ok change ri evs Hok) as (_ & Hcomments & Hevs & _).
    split; [|apply Hcomments].
    rewrite Hevs, <- Hlines.
    apply (flat_map_warnings_elem f); [done|]. by apply file_warnings_elem.
  - intros [Hnot _]%list_elem_of_filter. congruence.
  - intros name st fc skip. split; rewrite segment_body_spec.
    + assert (suppressed skip (mkSegment 2 2 MODIFICATION fc) = true) as -> by by vm_compute.
      assert (segment_lines (mkSegment 2 2 MODIFICATION fc) = {[ 2 ]}) as -> by by vm_compute.
      done.
    + assert (suppressed skip (mkSegment 1 1 MODIFICATION fc) = false) as -> by by vm_compute.
      by rewrite app_nil_r.
Qed.

(** C3.  A segment of a file with formatted contents whose line set does
    not meet the skip set of the file is turned, by its iteration, into
    a comment with the range (start, 0, end', 0), end' being the start
    for an insertion and the end for a modification; whenever the
    mapper returns a payload, which it does when the formatted files of
    the change have patch contents, that comment is in it under the
    name of the file.  An insertion anchored at line 5 gives the range
    (5, 0, 5, 0) and a modification of lines 3-6 gives (3, 0, 6, 0). *)
Theorem comment_range_convention `{Collaborators} (change : Change)
        (f : FileChange) (contents : list string) (segment : ReformatSegment) :
  f ∈ files change →
  formatted_contents f ≠ None →
  patch_contents f = Some contents →
  segment ∈ format_segments f →
  let end' := match reformat_type segment with
              | INSERTION => start segment
              | _ => end_ segment
              end in
  list_to_set (get_class_lines_in_file contents) ∩
    list_to_set (range (start segment) (end' + 1)) = (∅ : gset Z) →
  (∀ st, ∃ message operation',
     segment_body (filename f) (list_to_set (get_class_lines_in_file contents)) st segment =
     Ok (mkMapper
           (setdefault_extend (filename f)
              [CommentInput.mk message (mkCommentRange (start segment) 0 end' 0)]
              (comments st))
           operation' (trace st))) ∧
  (Forall formatted_from_patch (files change) →
   ∃ ri evs, _change_to_review_input change = Ok (ri, evs)) ∧
  (∀ ri evs,
     _change_to_review_input change = Ok (ri, evs) →
     ∃ c, c ∈ ReviewInput.comments ri !!! filename f ∧
          c = comment_of segment ∧
          CommentInput.range c = mkCommentRange (start segment) 0 end' 0) ∧
  (∀ name skip st e fc,
     suppressed skip (mkSegment 5 e INSERTION fc) = false →
     segment_body name skip st (mkSegment 5 e INSERTION fc) =
       Ok (mkMapper
             (setdefault_extend name
                [CommentInput.mk (suggestion_message "insert after" fc)
                   (mkCommentRange 5 0 5 0)]
                (comments st))
             (Some "insert after") (trace st))) ∧
  (∀ name skip st fc,
     suppressed skip (mkSegment 3 6 MODIFICATION fc) = false →
     segment_body name skip st (mkSegment 3 6 MODIFICATION fc) =
       Ok (mkMapper
             (setdefault_extend name
                [CommentInput.mk (suggestion_message "change" fc) (mkCommentRange 3 0 6 0)]
                (comments st))
             (Some "change") (trace st))).
Proof.
  intros Hf Hsome Hp Hin end' Hdisjoint.
  assert (Hs : suppressed (skip_set f) segment = false).
  { apply not_true_iff_false. rewrite (suppressed_in_file f contents segment Hp).
    intros Hmeet. by apply Hmeet. }
  split; [|split; [apply mapper_total|split; [|split]]].
  - intros st. rewrite segment_body_spec.
    rewrite <- (skip_set_patch f contents Hp), Hs, app_nil_r.
    unfold comment_of, end'. rewrite effective_end_match. eauto.
  - intros ri evs Hok.
    destruct (mapper_ok change ri evs Hok) as (_ & Hcomments & _).
    exists (comment_of segment). split; [|split; [done|]].
    + rewrite Hcomments. apply comments_for_elem; [done|].
      by apply file_comments_elem.
    + simpl. unfold end'. by rewrite effective_end_match.
  - intros name skip st e fc Hkept. by rewrite segment_body_spec, Hkept, app_nil_r.
  - intros name skip st fc Hkept. by rewrite segment_body_spec, Hkept, app_nil_r.
Qed.

(** C9.  A deletion is handled with its full span: the line set of the
    suppression test is start..end, and when the segment is not
    suppressed its comment has the range (start, 0, end, 0) and the
    fixed removal message, and is in the payload under the name of the
    file.  The iteration over a deletion hands the variable [operation]
    on as it found it, bound or not, and the iteration over a segment of
    any of the three types returns without raising, so that the mapper
    returns a payload for every change whose formatted files have patch
    contents. *)
Theorem deletion_uses_full_span `{Collaborators} (change : Change)
        (f : FileChange) (contents : list string) (segment : ReformatSegment) :
  f ∈ files change →
  formatted_contents f ≠ None →
  patch_contents f = Some contents →
  segment ∈ format_segments f →
  reformat_type segment = DELETION →
  list_to_set (get_class_lines_in_file contents) ∩
    list_to_set (range (start segment) (end_ segment + 1)) = (∅ : gset Z) →
  (∀ ri evs,
     _change_to_review_input change = Ok (ri, evs) →
     CommentInput.mk removal_message (mkCommentRange (start segment) 0 (end_ segment) 0)
       ∈ ReviewInput.comments ri !!! filename f) ∧
  (∀ name skip st deletion,
     reformat_type deletion = DELETION →
     let segment_lines_set : gset Z :=
       list_to_set (range (start deletion) (end_ deletion + 1)) in
     segment_body name skip st deletion =
     Ok (if decide (skip ∩ segment_lines_set ≠ ∅)
         then mkMapper (comments st) (operation st)
                (trace st ++ [warning_class_workaround name segment_lines_set])
         else mkMapper
                (setdefault_extend name
                   [CommentInput.mk removal_message
                      (mkCommentRange (start deletion) 0 (end_ deletion) 0)]
                   (comments st))
                (operation st) (trace st))) ∧
  (∀ name skip st any, ∃ st', segment_body name skip st any = Ok st') ∧
  (∀ other : Change,
     Forall formatted_from_patch (files other) →
     ∃ ri evs, _change_to_review_input other = Ok (ri, evs)).
Proof.
  intros Hf Hsome Hp Hin Hdel Hdisjoint.
  split; [|split; [|split]].
  - intros ri evs Hok.
    assert (Hs : suppressed (skip_set f) segment = false).
    { apply not_true_iff_false. rewrite (suppressed_in_file f contents segment Hp), Hdel.
      intros Hmeet. by apply Hmeet. }
    destruct (mapper_ok change ri evs Hok) as (_ & Hcomments & _).
    rewrite Hcomments.
    replace (CommentInput.mk _ _) with (comment_of segment)
      by (unfold comment_of, effective_end; by rewrite Hdel).
    apply comments_for_elem; [done|]. by apply file_comments_elem.
  - intros name skip st deletion Hd segment_lines_set.
    rewrite segment_body_spec.
    assert (Hlines : segment_lines deletion = segment_lines_set)
      by (unfold segment_lines, effective_end; by rewrite Hd).
    unfold comment_of, effective_end. rewrite Hd, Hlines.
    destruct (suppressed skip deletion) eqn:Hs.
    + apply suppressed_true in Hs. rewrite Hlines in Hs. by rewrite decide_True.
    + apply suppressed_false in Hs. rewrite Hlines in Hs.
      rewrite decide_False, app_nil_r; [done|]. intros Hmeet. by apply Hmeet.
  - intros name skip st any. rewrite segment_body_spec. eauto.
  - intros other. apply mapper_total.
Qed.

(** C4.  The mapper returns a payload for every change whose formatted
    files have patch contents, and the orchestrator hands it such a
    change.  In the payload the notify directive is OWNER; the comments
    under a name are those the files of that name contribute; when no
    name has a comment the message is the notice that no formatting
    changes are suggested and the labels are Haiku-Format: +1; when some
    name has a comment the message is the explanatory notice and the
    labels are Haiku-Format: -1. *)
Theorem review_verdict `{Collaborators} (change : Change) :
  (Forall formatted_from_patch (files change) →
   ∃ ri evs, _change_to_review_input change = Ok (ri, evs)) ∧
  (Forall formatted_from_patch (files change) →
   ∃ change' evs ri evs', reformat_change change = (change', evs, Ok (ri, evs'))) ∧
  (∀ ri evs,
     _change_to_review_input change = Ok (ri, evs) →
     ReviewInput.notify ri = OWNER ∧
     (∀ name, ReviewInput.comments ri !!! name = comments_for name (files change)) ∧
     ((∀ name, ReviewInput.comments ri !!! name = []) →
      ReviewInput.message ri = no_changes_message ∧
      ReviewInput.labels ri = {[ "Haiku-Format" := 1 ]}) ∧
     ((∃ name c, c ∈ ReviewInput.comments ri !!! name) →
      ReviewInput.message ri = some_changes_message ∧
      ReviewInput.labels ri = {[ "Haiku-Format" := -1 ]})).
Proof.
  split; [apply mapper_total|]. split.
  - intros Hwf. unfold reformat_change.
    destruct (reformat_files (files change)) as [fs evs] eqn:Hrun.
    destruct (mapper_total (mkChange fs)) as (ri & evs' & Hok).
    + simpl. replace fs with (reformat_files (files change)).1 by by rewrite Hrun.
      by apply reformat_files_formatted_from_patch.
    + exists (mkChange fs), evs, ri, evs'. by rewrite Hok.
  - intros ri evs Hok.
    destruct (mapper_cases change)
      as [(e & f & Hraise & _)|(ri' & evs' & Hok' & _ & Hlookup & _ & Hnotify & Hverdict)];
      [congruence|].
    rewrite Hok in Hok'. injection Hok' as <- <-.
    destruct (mapper_ok change ri evs Hok) as (_ & Hcomments & _).
    split; [done|]. split; [done|]. split.
    + intros Hnone.
      destruct Hverdict as [(_ & Hmsg & Hlabels)|(Hsome & _)]; [done|].
      exfalso. apply map_choose in Hsome as (k & cs & Hk).
      specialize (Hnone k). rewrite lookup_total_alt, Hk in Hnone. simpl in Hnone.
      rewrite Hlookup in Hk. case_decide as Hnew; [|done].
      injection Hk as <-. done.
    + intros (name & c & Hc).
      destruct Hverdict as [(Hempty & _)|(_ & Hmsg & Hlabels)]; [|done].
      exfalso. rewrite Hempty, lookup_total_empty in Hc. by apply elem_of_nil in Hc.
Qed.

Lemma class_region_suppression_witness :
  warning_class_workaround (H := sample_collaborators) "src/Foo.cpp" {[ 2 ]} ∈ sample_records ∧
  ReviewInput.comments sample_review !!! "src/Foo.cpp" =
    comments_for (H := sample_collaborators) "src/Foo.cpp" (files sample_formatted_change).
Proof.
  pose proof (class_region_suppression (H := sample_collaborators)
                sample_formatted_change
                (set_formatted_contents sample_new (Some sample_formatted))
                sample_patch (mkSegment 2 2 MODIFICATION ["int  x;"])) as Hclaim.
  destruct Hclaim as (_ & _ & Hpayload & _).
  - apply list_elem_of_here.
  - discriminate.
  - reflexivity.
  - apply list_elem_of_In. vm_compute. tauto.
  - intros Hempty. vm_compute in Hempty. discriminate.
  - apply (Hpayload sample_review sample_records). vm_compute. reflexivity.
Defined.

Lemma comment_range_convention_witness :
  ∃ c, c ∈ ReviewInput.comments sample_review !!! "src/Foo.cpp" ∧
       c = comment_of (mkSegment 5 6 INSERTION ["  int y;"]) ∧
       CommentInput.range c = mkCommentRange 5 0 5 0.
Proof.
  pose proof (comment_range_convention (H := sample_collaborators)
                sample_formatted_change
                (set_formatted_contents sample_new (Some sample_formatted))
                sample_patch (mkSegment 5 6 INSERTION ["  int y;"])) as Hclaim.
  destruct Hclaim as (_ & _ & Hpayload & _).
  - apply list_elem_of_here.
  - discriminate.
  - reflexivity.
  - apply list_elem_of_In. vm_compute. tauto.
  - vm_compute. reflexivity.
  - apply (Hpayload sample_review sample_records). vm_compute. reflexivity.
Defined.

Lemma deletion_uses_full_span_witness :
  CommentInput.mk removal_message (mkCommentRange 7 0 7 0)
    ∈ ReviewInput.comments sample_review !!! "src/Foo.cpp".
Proof.
  pose proof (deletion_uses_full_span (H := sample_collaborators)
                sample_formatted_change
                (set_formatted_contents sample_new (Some sample_formatted))
                sample_patch (mkSegment 7 7 DELETION [])) as Hclaim.
  destruct Hclaim as (Hpayload & _).
  - apply list_elem_of_here.
  - discriminate.
  - reflexivity.
  - apply list_elem_of_In. vm_compute. tauto.
  - reflexivity.
  - vm_compute. reflexivity.
  - apply (Hpayload sample_review sample_records). vm_compute. reflexivity.
Defined.

Lemma review_verdict_witness :
  ReviewInput.notify sample_review = OWNER ∧
  ReviewInput.message sample_review = some_changes_message ∧
  ReviewInput.labels sample_review = {[ "Haiku-Format" := -1 ]} ∧
  ∃ ri evs, _change_to_review_input (H := sample_collaborators) sample_formatted_change =
            Ok (ri, evs).
Proof.
  destruct (review_verdict (H := sample_collaborators) sample_formatted_change)
    as (Htotal & _ & Hpayload).
  destruct (Hpayload sample_review sample_records) as (Hnotify & _ & _ & Hsome).
  - vm_compute. reflexivity.
  - destruct Hsome as [Hmessage Hlabels].
    + exists "src/Foo.cpp", (comment_of (mkSegment 7 7 DELETION [])).
      apply list_elem_of_In. vm_compute. tauto.
    + split; [exact Hnotify|]. split; [exact Hmessage|]. split; [exact Hlabels|].
      apply Htotal. repeat constructor. intros _. discriminate.
Defined.

(** * Further properties of the patterns, the detector, the loop and the mapper *)

Section MorePatternProperties.

Implicit Types (k : nat → string → bool) (t : string).

Lemma lower_fixes (c d : ascii) :
  (Nat.ltb (nat_of_ascii c) 97 || Nat.ltb 122 (nat_of_ascii c))%bool = true →
  lower d = c → d = c.
Proof.
  destruct c as [[] [] [] [] [] [] [] []]; try discriminate; intros _;
    destruct d as [[] [] [] [] [] [] [] []]; vm_compute; congruence.
Qed.







Lemma run_mono ic r :
  ∀ k k', (∀ pos t, k pos t = true → k' pos t = true) →
  ∀ pos t, run ic r k pos t = true → run ic r k' pos t = true.
Proof.
  induction r as [| |c| | |r1 IH1 r2 IH2|r1 IH1 r2 IH2|r1 IH1];
    intros k k' Hk pos t; cbn [run].
  - intros [-> ?]%andb_true_iff. by rewrite (Hk pos t).
  - intros [-> ?]%andb_true_iff. by rewrite (Hk pos t).
  - destruct t as [|d t]; [done|].
    intros [-> ?]%andb_true_iff. by rewrite (Hk _ t).
  - revert pos. induction t as [|d t IHt]; intros pos; cbn [dot_star].
    + rewrite !orb_false_r. apply Hk.
    + intros [Hhere|Hlater]%orb_true_iff; apply orb_true_iff; [left; by apply Hk|right].
      destruct (Ascii.eqb d LF); [done|]. by apply IHt.
  - apply Hk.
  - apply IH1. intros pos' t'. by apply IH2.
  - intros [H1|H2]%orb_true_iff; apply orb_true_iff;
      [left; by apply (IH1 k k' Hk)|right; by apply (IH2 k k' Hk)].
  - intros [H1|H2]%orb_true_iff; apply orb_true_iff;
      [left; by apply (IH1 k k' Hk)|right; by apply Hk].
Qed.

(** A run that ends in a semicolon before the end also ends before the
    end. *)
Lemma dot_star_semicolon pos t :
  dot_star (run false (Seq (Lit ";") Eol) (λ _ _, true)) pos t = true →
  dot_star (run false Eol (λ _ _, true)) pos t = true.
Proof.
  revert pos. induction t as [|d t IH]; intros pos; cbn [dot_star]; [done|].
  intros [Hhere|Hlater]%orb_true_iff; apply orb_true_iff; right.
  - cbn [run] in Hhere. apply andb_true_iff in Hhere as [Hd Hend].
    unfold lit_eqb in Hd. apply Ascii.eqb_eq in Hd as <-.
    change (Ascii.eqb ";" LF) with false. cbv iota.
    destruct t as [|e t]; cbn [dot_star run]; by rewrite Hend.
  - destruct (Ascii.eqb d LF); [done|]. by apply IH.
Qed.

(** X2.  Every line the class declaration pattern accepts is also
    accepted by the class definition start pattern; the declaration
    test comes first in the scanner, so such a line never opens a
    region. *)
Theorem class_declaration_is_definition_start (line : string) :
  matches false _CLASS_DECLARATION_PATTERN line = true →
  matches false _CLASS_DEFINITION_START_PATTERN line = true.
Proof.
  unfold matches, _CLASS_DECLARATION_PATTERN, _CLASS_DEFINITION_START_PATTERN.
  cbn [run]. intros [-> Hrest]%andb_true_iff. cbn [andb].
  revert Hrest.
  change (run false (Alt (Str "class") (Str "struct"))
            (run false (Lit " ")
               (dot_star (run false (Seq (Lit ";") Eol) (λ _ _, true)))) 0%nat line = true →
          run false (Alt (Str "class") (Str "struct"))
            (run false (Lit " ") (dot_star (run false Eol (λ _ _, true)))) 0%nat line = true).
  apply run_mono. intros pos t. apply (run_mono false (Lit " ")).
  apply dot_star_semicolon.
Qed.

Lemma class_declaration_is_definition_start_witness :
  matches false _CLASS_DEFINITION_START_PATTERN "class BView;" = true.
Proof. apply class_declaration_is_definition_start. reflexivity. Defined.

Lemma strip_word_exact w t rest :
  strip_word false w t = Some rest ↔ t = w +:+ rest.
Proof.
  revert t. induction w as [|c w IH]; intros t; simpl.
  - split; [by intros [= ->]|by intros ->].
  - destruct t as [|d t]; [done|]. unfold lit_eqb.
    destruct (Ascii.eqb_spec c d) as [->|Hne].
    + rewrite IH. split; [by intros ->|by intros [= ->]].
    + split; [done|]. intros [= ? ?]. done.
Qed.

Lemma dot_star_to_end k pos t :
  (∀ pos', k pos' "" = true) → count LF t = 0 → dot_star k pos t = true.
Proof.
  intros Hk. revert pos. induction t as [|d t IH]; intros pos Ht; cbn [dot_star].
  - by rewrite Hk.
  - apply count_cons_0 in Ht as [-> Ht]. rewrite (IH _ Ht). apply orb_true_r.
Qed.

Lemma dot_star_semicolon_end pos t :
  count LF t = 0 →
  dot_star (run false (Seq (Lit ";") Eol) (λ _ _, true)) pos t = true ↔
  ∃ body, t = body +:+ ";".
Proof.
  revert pos. induction t as [|d t IH]; intros pos Ht; cbn [dot_star].
  - split; [done|]. by intros [[|? ?] ?].
  - apply count_cons_0 in Ht as [Hd Ht]. rewrite Hd, orb_true_iff, (IH (S pos) Ht).
    cbn [run]. unfold lit_eqb. split.
    + intros [[Hsemi Hend]%andb_true_iff|[body ->]].
      * apply Ascii.eqb_eq in Hsemi as <-. exists "".
        destruct t as [|e t]; [done|]. exfalso.
        apply count_cons_0 in Ht as [He Ht]. simpl in Hend.
        destruct t; [by rewrite He in Hend|done].
      * by exists (String d body).
    + intros [[|d' body] Heq]; simpl in Heq; injection Heq as -> ->.
      * by left.
      * right. by exists body.
Qed.

(** X3.  On a line without line feed, the definition start pattern
    accepts exactly the lines that start with class or struct followed
    by a space, and the declaration pattern accepts exactly those of
    them that end in a semicolon after the keyword and the space.  The
    keywords are compared with regard to case. *)
Theorem class_patterns_on_plain_lines (line : string) :
  count LF line = 0 →
  (matches false _CLASS_DEFINITION_START_PATTERN line = true ↔
   ∃ rest, line = "class " +:+ rest ∨ line = "struct " +:+ rest) ∧
  (matches false _CLASS_DECLARATION_PATTERN line = true ↔
   ∃ body, line = "class " +:+ body +:+ ";" ∨ line = "struct " +:+ body +:+ ";").
Proof.
  intros Hline.
  unfold matches, _CLASS_DECLARATION_PATTERN, _CLASS_DEFINITION_START_PATTERN.
  cbn [run Nat.eqb andb]. rewrite !run_Str, !orb_true_iff.
  assert (Hclass : ∀ rest, line = "class" +:+ rest → count LF rest = 0)
    by (by intros rest ->).
  assert (Hstruct : ∀ rest, line = "struct" +:+ rest → count LF rest = 0)
    by (by intros rest ->).
  split; (split; [intros [Hm|Hm]|intros [rest [-> | ->]]]).
  - destruct (strip_word false "class" line) as [[|d rest]|] eqn:Hs;
      cbn [run] in Hm; try done.
    apply strip_word_exact in Hs as ->.
    apply andb_true_iff in Hm as [Hd%Ascii.eqb_eq _]. subst d. exists rest. by left.
  - destruct (strip_word false "struct" line) as [[|d rest]|] eqn:Hs;
      cbn [run] in Hm; try done.
    apply strip_word_exact in Hs as ->.
    apply andb_true_iff in Hm as [Hd%Ascii.eqb_eq _]. subst d. exists rest. by right.
  - left. assert (strip_word false "class" ("class " +:+ rest) = Some (" " +:+ rest)) as ->
      by by apply strip_word_exact.
    cbn -[dot_star]. apply dot_star_to_end; [done|]. by apply (Hclass (" " +:+ rest)).
  - right. assert (strip_word false "struct" ("struct " +:+ rest) = Some (" " +:+ rest)) as ->
      by by apply strip_word_exact.
    cbn -[dot_star]. apply dot_star_to_end; [done|]. by apply (Hstruct (" " +:+ rest)).
  - destruct (strip_word false "class" line) as [[|d rest]|] eqn:Hs;
      cbn [run] in Hm; try done.
    apply strip_word_exact in Hs as Hl.
    apply andb_true_iff in Hm as [Hd%Ascii.eqb_eq Hm]. subst d.
    apply dot_star_semicolon_end in Hm as [body ->]; [|by apply (Hclass _ Hl)].
    exists body. by left.
  - destruct (strip_word false "struct" line) as [[|d rest]|] eqn:Hs;
      cbn [run] in Hm; try done.
    apply strip_word_exact in Hs as Hl.
    apply andb_true_iff in Hm as [Hd%Ascii.eqb_eq Hm]. subst d.
    apply dot_star_semicolon_end in Hm as [body ->]; [|by apply (Hstruct _ Hl)].
    exists body. by right.
  - left.
    assert (strip_word false "class" ("class " +:+ rest +:+ ";") = Some (" " +:+ rest +:+ ";"))
      as -> by by apply strip_word_exact.
    cbn -[dot_star]. apply dot_star_semicolon_end; [|by exists rest].
    by apply (Hclass (" " +:+ rest +:+ ";")).
  - right.
    assert (strip_word false "struct" ("struct " +:+ rest +:+ ";") = Some (" " +:+ rest +:+ ";"))
      as -> by by apply strip_word_exact.
    cbn -[dot_star]. apply dot_star_semicolon_end; [|by exists rest].
    by apply (Hstruct (" " +:+ rest +:+ ";")).
Qed.

Lemma class_patterns_on_plain_lines_witness :
  matches false _CLASS_DEFINITION_START_PATTERN "struct entry_ref {" = true ∧
  (matches false _CLASS_DECLARATION_PATTERN "struct entry_ref {" = true →
   ∃ body, "struct entry_ref {" = "class " +:+ body +:+ ";" ∨
           "struct entry_ref {" = "struct " +:+ body +:+ ";").
Proof.
  destruct (class_patterns_on_plain_lines "struct entry_ref {" eq_refl) as [Hdef Hdecl].
  split.
  - apply Hdef. exists "entry_ref {". by right.
  - apply Hdecl.
Defined.

Lemma dot_star_no_dot r k pos t :
  count "." t = 0 → dot_star (run true (Seq (Lit ".") r) k) pos t = false.
Proof.
  revert pos. induction t as [|d t IH]; intros pos Ht; cbn [dot_star run]; [done|].
  apply count_cons_0 in Ht as [Hd Ht].
  assert (lit_eqb true "." d = false) as ->.
  { unfold lit_eqb. destruct (Ascii.eqb_spec (lower ".") (lower d)) as [Heq|]; [|done].
    exfalso. symmetry in Heq. apply lower_fixes in Heq; [|done].
    subst d. discriminate. }
  rewrite (IH _ Ht). by destruct (Ascii.eqb d LF).
Qed.

(** X4.  A name without a dot is refused by the extension pattern. *)
Theorem name_without_dot_is_ignored (name : string) :
  count "." name = 0 → matches true EXTENSION_PATTERN name = false.
Proof.
  intros Hname. unfold matches, EXTENSION_PATTERN.
  change (run true (Seq Bol (Seq DotStar (Seq (Lit ".") ?r))) ?k 0%nat name)
    with (dot_star (run true (Seq (Lit ".") r) k) 0%nat name).
  by apply dot_star_no_dot.
Qed.

Lemma name_without_dot_is_ignored_witness :
  matches true EXTENSION_PATTERN "src/kits/Jamfile" = false.
Proof. apply name_without_dot_is_ignored. reflexivity. Defined.





End MorePatternProperties.

Section MoreDetectorProperties.

Implicit Types (st : ScanState) (contents : list string) (line : string).

Lemma scan_line_level_outside st n line :
  (in_class st = false → level st = 0) →
  in_class (scan_line st n line) = false → level (scan_line st n line) = 0.
Proof.
  intros Hinv. unfold scan_line. destruct (in_class st) eqn:Hin; simpl.
  - destruct (Z.eqb_spec (update_level (level st) line) 0); simpl; [done|discriminate].
  - repeat case_match; simpl; auto; discriminate.
Qed.

Lemma scan_from_level_outside contents st n :
  (in_class st = false → level st = 0) →
  in_class (scan_from st n contents) = false → level (scan_from st n contents) = 0.
Proof.
  revert st n. induction contents as [|line contents IH]; intros st n Hinv; simpl; [done|].
  apply IH. by apply scan_line_level_outside.
Qed.

(** A flagged number is that of a line visited inside a class. *)
Lemma flagged_line_visited_in_class contents n :
  n ∈ get_class_lines_in_file contents →
  ∃ i : nat, n = Z.of_nat i + 1 ∧ (i < length contents)%nat ∧
             in_class (state_before contents i) = true.
Proof.
  intros Hn.
  assert (Hbound : 1 ≤ n ≤ Z.of_nat (length contents)).
  { rewrite get_class_lines_state_before in Hn.
    pose proof (state_before_bound contents (length contents)) as Hall.
    rewrite Forall_forall in Hall. apply Hall in Hn. lia. }
  exists (Z.to_nat (n - 1)). split; [lia|]. split; [lia|].
  destruct (lookup_lt_is_Some_2 contents (Z.to_nat (n - 1)) ltac:(lia)) as [line Hi].
  pose proof (lineno_in_result contents _ line Hi) as Hiff.
  replace (Z.of_nat (Z.to_nat (n - 1)) + 1) with n in Hiff by lia.
  apply Hiff in Hn. rewrite (state_before_S _ _ _ Hi) in Hn.
  replace (Z.of_nat (Z.to_nat (n - 1)) + 1) with n in Hn by lia.
  destruct (scan_line_skip_lines (state_before contents (Z.to_nat (n - 1))) n line)
    as [Hsame|[Hin _]]; [|done].
  rewrite Hsame in Hn. exfalso.
  pose proof (lineno_fresh contents (Z.to_nat (n - 1))) as Hfresh.
  replace (Z.of_nat (Z.to_nat (n - 1)) + 1) with n in Hfresh by lia. done.
Qed.

Lemma state_before_level_outside contents i :
  in_class (state_before contents i) = false → level (state_before contents i) = 0.
Proof. apply scan_from_level_outside. done. Qed.

(** X6.  Whenever the scanner is outside a class its brace level is 0,
    at every point of the scan: each class region starts to count from
    level 0. *)
Theorem level_is_zero_outside_class (contents : list string) (i : nat) :
  in_class (state_before contents i) = false → level (state_before contents i) = 0.
Proof. apply state_before_level_outside. Qed.

Lemma level_is_zero_outside_class_witness :
  level (state_before ["struct A {"; "int a;"; "};"; "int b;"] 3) = 0.
Proof. apply level_is_zero_outside_class. reflexivity. Defined.

(** X7.  Appending lines to a file leaves the class lines found so far
    as they are: the result for the longer file is the result for the
    shorter one followed by numbers of appended lines only. *)
Theorem class_lines_of_prefix (contents more : list string) :
  ∃ later,
    get_class_lines_in_file (contents ++ more) = get_class_lines_in_file contents ++ later ∧
    Forall (λ n, Z.of_nat (length contents) < n ≤ Z.of_nat (length contents + length more)) later.
Proof.
  rewrite !get_class_lines_state_before. unfold state_before.
  rewrite !firstn_all, scan_from_app.
  destruct (scan_from_extends (scan_from (mkScan [] false 0) 1 contents)
              (1 + Z.of_nat (length contents)) more) as (later & -> & _ & Hall).
  exists later. split; [done|].
  eapply Forall_impl; [exact Hall|]. simpl. lia.
Qed.

Lemma scan_from_no_start contents st n :
  in_class st = false →
  Forall (λ line, matches false _CLASS_DEFINITION_START_PATTERN line = false) contents →
  scan_from st n contents = st.
Proof.
  intros Hout Hall. revert n. induction Hall as [|line contents Hline _ IH]; intros n; simpl; [done|].
  assert (scan_line st n line = st) as ->; [|apply IH].
  unfold scan_line. rewrite Hout, Hline. cbn [negb].
  by destruct (matches false _CLASS_DECLARATION_PATTERN line).
Qed.

(** A line the definition pattern accepts starts with one of the two
    keywords and a space. *)
Lemma definition_start_prefix line :
  matches false _CLASS_DEFINITION_START_PATTERN line = true →
  ∃ rest, line = "class " +:+ rest ∨ line = "struct " +:+ rest.
Proof.
  unfold matches, _CLASS_DEFINITION_START_PATTERN.
  cbn [run Nat.eqb andb]. rewrite !run_Str, orb_true_iff.
  intros [Hm|Hm].
  - destruct (strip_word false "class" line) as [[|d rest]|] eqn:Hs;
      cbn [run] in Hm; try done.
    apply strip_word_exact in Hs as ->.
    apply andb_true_iff in Hm as [Hd%Ascii.eqb_eq _]. subst d.
    exists rest. by left.
  - destruct (strip_word false "struct" line) as [[|d rest]|] eqn:Hs;
      cbn [run] in Hm; try done.
    apply strip_word_exact in Hs as ->.
    apply andb_true_iff in Hm as [Hd%Ascii.eqb_eq _]. subst d.
    exists rest. by right.
Qed.

Lemma no_keyword_no_class_lines contents :
  Forall (λ line, ∀ rest, line ≠ "class " +:+ rest ∧ line ≠ "struct " +:+ rest) contents →
  get_class_lines_in_file contents = [].
Proof.
  intros Hall. rewrite get_class_lines_state_before. unfold state_before.
  rewrite firstn_all, scan_from_no_start; [done..|].
  eapply Forall_impl; [exact Hall|]. intros line Hline.
  apply not_true_iff_false. intros [rest [Hc|Hs]]%definition_start_prefix.
  - by destruct (Hline rest) as [? _].
  - by destruct (Hline rest) as [_ ?].
Qed.

(** X8.  A file none of whose lines starts with class or struct and a
    space has no class lines; an indented class, for one, is not
    seen. *)
Theorem no_class_line_no_class_region (contents : list string) :
  Forall (λ line, ∀ rest, line ≠ "class " +:+ rest ∧ line ≠ "struct " +:+ rest) contents →
  get_class_lines_in_file contents = [].
Proof. apply no_keyword_no_class_lines. Qed.

Lemma no_class_line_no_class_region_witness :
  get_class_lines_in_file ["int main()"; "{"; "  class Local {};"; "}"] = [].
Proof.
  apply no_class_line_no_class_region.
  repeat constructor; discriminate.
Defined.

Lemma state_before_beyond contents i :
  (length contents ≤ i)%nat → state_before contents (S i) = state_before contents i.
Proof.
  intros Hlen. unfold state_before. by rewrite !take_ge by lia.
Qed.

(** While the scanner is inside a class, the line that opened the region
    lies behind it, and the scanner has been inside the class since. *)
Lemma in_class_has_opening contents i :
  in_class (state_before contents i) = true →
  ∃ j line, (j < i)%nat ∧ contents !! j = Some line ∧
            in_class (state_before contents j) = false ∧
            matches false _CLASS_DEFINITION_START_PATTERN line = true ∧
            matches false _CLASS_DECLARATION_PATTERN line = false ∧
            ∀ m, (j < m ≤ i)%nat → in_class (state_before contents m) = true.
Proof.
  induction i as [|i IH]; [done|]. intros Hnow.
  destruct (in_class (state_before contents i)) eqn:Hin.
  - destruct (IH eq_refl) as (j & l & Hj & Hl & Hout & Hdef & Hdecl & Hsince).
    exists j, l. split; [lia|]. repeat (split; [done|]).
    intros m Hm. destruct (decide (m = S i)) as [->|]; [done|]. apply Hsince. lia.
  - destruct (contents !! i) as [line|] eqn:Hi.
    + rewrite (state_before_S _ _ _ Hi) in Hnow. unfold scan_line in Hnow.
      rewrite Hin in Hnow. cbn [negb] in Hnow.
      destruct (matches false _CLASS_DECLARATION_PATTERN line) eqn:Hdecl;
        [congruence|].
      destruct (matches false _CLASS_DEFINITION_START_PATTERN line) eqn:Hdef;
        [|congruence].
      exists i, line. split; [lia|]. repeat (split; [done|]).
      intros m Hm. replace m with (S i) by lia.
      rewrite (state_before_S _ _ _ Hi). unfold scan_line.
      by rewrite Hin, Hdecl, Hdef.
    + rewrite state_before_beyond in Hnow by by apply lookup_ge_None.
      congruence.
Qed.

(** X9.  Every class line lies behind a line that opened a class region
    (met outside a class, accepted by the definition start pattern and
    refused by the declaration pattern), and the scanner stayed inside
    the class from that line to the class line. *)
Theorem flagged_line_follows_class_start (contents : list string) (n : Z) :
  n ∈ get_class_lines_in_file contents →
  ∃ (j : nat) (line : string),
    Z.of_nat j + 1 < n ∧
    contents !! j = Some line ∧
    in_class (state_before contents j) = false ∧
    matches false _CLASS_DEFINITION_START_PATTERN line = true ∧
    matches false _CLASS_DECLARATION_PATTERN line = false ∧
    ∀ m : nat, Z.of_nat j + 1 < Z.of_nat m + 1 ≤ n →
               in_class (state_before contents m) = true.
Proof.
  intros Hn.
  destruct (flagged_line_visited_in_class contents n Hn) as (i & -> & Hi & Hin).
  destruct (in_class_has_opening contents i Hin)
    as (j & line & Hj & Hl & Hout & Hdef & Hdecl & Hsince).
  exists j, line. split; [lia|]. repeat (split; [done|]).
  intros m Hm. apply Hsince. lia.
Qed.

Lemma flagged_line_follows_class_start_witness :
  ∃ (j : nat) (line : string),
    Z.of_nat j + 1 < 3 ∧
    ["int a;"; "class Foo"; "{"; "};"] !! j = Some line ∧
    matches false _CLASS_DEFINITION_START_PATTERN line = true.
Proof.
  destruct (flagged_line_follows_class_start ["int a;"; "class Foo"; "{"; "};"] 3)
    as (j & line & Hj & Hl & _ & Hdef & _).
  - apply list_elem_of_In. vm_compute. tauto.
  - exists j, line. split; [exact Hj|]. split; [exact Hl|exact Hdef].
Defined.

(** Inside a class whose braces never balance again, the scanner stays
    inside. *)
Lemma unclosed_class_stays_open contents i k :
  in_class (state_before contents i) = true →
  1 ≤ level (state_before contents i) →
  (∀ j l, (i ≤ j)%nat → contents !! j = Some l → count "}" l ≤ count "{" l) →
  in_class (state_before contents (i + k)) = true ∧
  1 ≤ level (state_before contents (i + k)).
Proof.
  intros Hin Hlevel Hopen. induction k as [|k [IHin IHlevel]].
  - by rewrite Nat.add_0_r.
  - replace (i + S k)%nat with (S (i + k)) by lia.
    destruct (contents !! (i + k)%nat) as [l|] eqn:Hl.
    + rewrite (state_before_S _ _ _ Hl). unfold scan_line. rewrite IHin. cbn [negb].
      pose proof (Hopen (i + k)%nat l ltac:(lia) Hl) as Hbraces.
      unfold update_level.
      destruct (Z.eqb_spec (level (state_before contents (i + k)) + count "{" l - count "}" l) 0);
        simpl; [lia|]. split; [done|lia].
    + by rewrite state_before_beyond by by apply lookup_ge_None.
Qed.

(** X10.  When a line opens a class region with more opening than
    closing braces and no later line has more closing than opening
    braces, every later line of the file is a class line: a class that
    is never closed takes the rest of the file. *)
Theorem unclosed_class_flags_rest (contents : list string) (i : nat) (line : string) :
  contents !! i = Some line →
  in_class (state_before contents i) = false →
  matches false _CLASS_DEFINITION_START_PATTERN line = true →
  matches false _CLASS_DECLARATION_PATTERN line = false →
  count "}" line < count "{" line →
  (∀ j l, (i < j)%nat → contents !! j = Some l → count "}" l ≤ count "{" l) →
  ∀ j : nat, (i < j < length contents)%nat →
             Z.of_nat j + 1 ∈ get_class_lines_in_file contents.
Proof.
  intros Hi Hout Hdef Hdecl Hbraces Hopen j Hj.
  assert (Hstart : in_class (state_before contents (S i)) = true ∧
                   1 ≤ level (state_before contents (S i))).
  { rewrite (state_before_S _ _ _ Hi). unfold scan_line.
    rewrite Hout, Hdecl, Hdef. cbn [negb in_class level]. split; [reflexivity|].
    rewrite (state_before_level_outside contents i Hout). unfold update_level. lia. }
  destruct Hstart as [Hin Hlevel].
  destruct (unclosed_class_stays_open contents (S i) (j - S i) Hin Hlevel)
    as [Hinj Hlevelj].
  { intros m l Hm. apply Hopen. lia. }
  replace (S i + (j - S i))%nat with j in Hinj, Hlevelj by lia.
  destruct (lookup_lt_is_Some_2 contents j ltac:(lia)) as [l Hl].
  rewrite (lineno_in_result _ _ _ Hl), (state_before_S _ _ _ Hl).
  unfold scan_line. rewrite Hinj. cbn [negb].
  pose proof (Hopen j l ltac:(lia) Hl) as Hb. unfold update_level.
  destruct (Z.eqb_spec (level (state_before contents j) + count "{" l - count "}" l) 0);
    simpl; [lia|].
  apply elem_of_app. right. by apply list_elem_of_singleton.
Qed.

Lemma unclosed_class_flags_rest_witness :
  4 ∈ get_class_lines_in_file ["class Foo {"; "int x;"; "int main() {"; "return 0;"].
Proof.
  apply (unclosed_class_flags_rest ["class Foo {"; "int x;"; "int main() {"; "return 0;"]
           0 "class Foo {" eq_refl eq_refl eq_refl eq_refl) with (j := 3%nat).
  - reflexivity.
  - intros [|[|[|[|j]]]] l Hj Hl; try lia; try discriminate;
      injection Hl as <-; by vm_compute.
  - simpl. lia.
Defined.

End MoreDetectorProperties.

Section MoreOrchestratorProperties.
Context `{Collaborators}.

Implicit Types (f : FileChange) (fs : list FileChange).

Lemma reformat_file_only_formatted f :
  ∃ v, (reformat_file f).1 = set_formatted_contents f v.
Proof.
  unfold reformat_file, format_file.
  repeat case_match; simpl; eauto; exists (formatted_contents f); by destruct f.
Qed.

(** X11.  The loop over the files keeps their number and order, and
    changes nothing of a file but its formatted contents: name, base
    contents, patch contents and patch segments are as before, and the
    formatted contents are either as before or what the formatter
    returned for the patch contents. *)
Theorem loop_changes_formatted_contents_only (fs : list FileChange) :
  length (reformat_files fs).1 = length fs ∧
  ∀ i f f', fs !! i = Some f → (reformat_files fs).1 !! i = Some f' →
            filename f' = filename f ∧
            base_contents f' = base_contents f ∧
            patch_contents f' = patch_contents f ∧
            patch_segments f' = patch_segments f ∧
            (formatted_contents f' = formatted_contents f ∨
             ∃ contents segments,
               patch_contents f = Some contents ∧
               formatted_contents f' = run_clang_format contents segments).
Proof.
  split; [apply reformat_files_length|].
  intros i f f' Hi Hout.
  destruct (reformat_files_at fs i f Hi) as [Hlookup _].
  rewrite Hlookup in Hout. injection Hout as <-.
  unfold reformat_file, format_file.
  repeat case_match; simpl; repeat (split; [done|]); eauto.
Qed.




Lemma reformat_file_again f :
  reformat_file (reformat_file f).1 = ((reformat_file f).1, (reformat_file f).2).
Proof.
  unfold reformat_file.
  destruct (matches true EXTENSION_PATTERN (filename f)) eqn:Hext; cbn [negb].
  - destruct (patch_contents f) as [contents|] eqn:Hp.
    + destruct (base_contents f) as [base|] eqn:Hb.
      * destruct (Nat.eqb (length (patch_segments f)) 0) eqn:Hs.
        -- cbn [fst snd]. by rewrite Hext, Hp, Hb, Hs.
        -- unfold format_file.
           cbn [fst snd filename patch_contents base_contents patch_segments
                set_formatted_contents].
           by rewrite Hext, Hp, Hb, Hs.
      * unfold format_file.
        cbn [fst snd filename patch_contents base_contents patch_segments
             set_formatted_contents].
        by rewrite Hext, Hp, Hb.
    + cbn [fst snd]. by rewrite Hext, Hp.
  - cbn [fst snd]. by rewrite Hext.
Qed.

(** X13.  Running the loop on the files it produced repeats the same
    events and leaves the files as they are. *)
Theorem loop_is_idempotent (fs : list FileChange) :
  reformat_files (reformat_files fs).1 = reformat_files fs.
Proof.
  induction fs as [|f fs IH]; [done|].
  rewrite (reformat_files_cons f fs). cbn [fst].
  rewrite reformat_files_cons, reformat_file_again, IH. cbn [fst snd].
  by destruct (reformat_files fs).
Qed.

Lemma reformat_file_call f contents segments :
  (contents, segments) ∈ formatter_calls (reformat_file f).2 →
  matches true EXTENSION_PATTERN (filename f) = true ∧
  patch_contents f = Some contents ∧
  (base_contents f = None ∧ segments = [] ∨
   base_contents f ≠ None ∧ patch_segments f ≠ [] ∧
   segments = map format_range (patch_segments f)).
Proof.
  unfold reformat_file.
  destruct (matches true EXTENSION_PATTERN (filename f)); cbn [negb];
    [|by intros ?%elem_of_nil].
  destruct (patch_contents f) as [c|]; [|by intros ?%elem_of_nil].
  destruct (base_contents f) as [b|].
  - destruct (Nat.eqb_spec (length (patch_segments f)) 0) as [Hlen|Hlen];
      [by intros ?%elem_of_nil|].
    rewrite (proj2 (format_file_calls f c _)).
    intros [= -> ->]%list_elem_of_singleton. split; [done|]. split; [done|].
    right. split; [done|]. split; [|done]. intros Hnil. by rewrite Hnil in Hlen.
  - rewrite (proj2 (format_file_calls f c _)).
    intros [= -> ->]%list_elem_of_singleton. split; [done|]. split; [done|].
    by left.
Qed.

(** X14.  The formatter is only ever called for a file of the change
    with a supported extension and patch contents, with those patch
    contents; the target ranges are empty for a file without base
    contents and the ranges of the non-empty patch segments
    otherwise. *)
Theorem formatter_called_only_for_eligible_files (fs : list FileChange)
        (contents : list string) (segments : list FormatRange) :
  (contents, segments) ∈ formatter_calls (reformat_files fs).2 →
  ∃ f, f ∈ fs ∧
       matches true EXTENSION_PATTERN (filename f) = true ∧
       patch_contents f = Some contents ∧
       (base_contents f = None ∧ segments = [] ∨
        base_contents f ≠ None ∧ patch_segments f ≠ [] ∧
        segments = map format_range (patch_segments f)).
Proof.
  induction fs as [|f fs IH]; [by intros ?%elem_of_nil|].
  rewrite reformat_files_cons. cbn [snd]. rewrite formatter_calls_app.
  intros [Hhere|Hlater]%elem_of_app.
  - exists f. split; [apply list_elem_of_here|]. by apply reformat_file_call.
  - destruct (IH Hlater) as (g & Hg & Hrest). exists g.
    split; [by apply list_elem_of_further|done].
Qed.

End MoreOrchestratorProperties.

Section MoreMapperProperties.
Context `{Collaborators}.

Implicit Types (st : MapperState) (f : FileChange) (segment : ReformatSegment)
         (skip : gset Z) (name : string).

Lemma suppressed_by_lines skip segment :
  suppressed skip segment = true ↔
  ∃ n, n ∈ skip ∧ start segment ≤ n ≤ effective_end segment.
Proof.
  rewrite suppressed_true. unfold segment_lines, range. split.
  - intros [n Hn]%set_choose_L.
    apply elem_of_intersection in Hn as [Hskip Hrange].
    apply elem_of_list_to_set, elem_of_seqZ in Hrange.
    exists n. split; [done|lia].
  - intros (n & Hskip & Hn) Hempty.
    assert (Hin : n ∈ skip ∩ (list_to_set (seqZ (start segment)
                     (effective_end segment + 1 - start segment)) : gset Z)).
    { apply elem_of_intersection. split; [done|].
      apply elem_of_list_to_set, elem_of_seqZ. lia. }
    rewrite Hempty in Hin. by apply not_elem_of_empty in Hin.
Qed.

(** X15.  The suppression test in terms of line numbers: a segment is
    discarded, with a warning that carries its line set, when some line
    number of the skip set lies between its start and its end'; it is
    turned into a comment with the range (start, 0, end', 0) when none
    does, which is always so when end' is below start. *)
Theorem suppression_by_line_numbers (name : string) (skip : gset Z)
        (st : MapperState) (segment : ReformatSegment) :
  let end' := match reformat_type segment with
              | INSERTION => start segment
              | _ => end_ segment
              end in
  ((∃ n, n ∈ skip ∧ start segment ≤ n ≤ end') →
   ∃ operation',
     segment_body name skip st segment =
     Ok (mkMapper (comments st) operation'
           (trace st ++ [warning_class_workaround name
                           (list_to_set (range (start segment) (end' + 1)))]))) ∧
  ((∀ n, n ∈ skip → n < start segment ∨ end' < n) →
   ∃ message operation',
     segment_body name skip st segment =
     Ok (mkMapper
           (setdefault_extend name
              [CommentInput.mk message (mkCommentRange (start segment) 0 end' 0)]
              (comments st))
           operation' (trace st))) ∧
  (end' < start segment →
   ∃ st', segment_body name skip st segment = Ok st' ∧ trace st' = trace st).
Proof.
  intros end'.
  assert (Hend : effective_end segment = end') by (symmetry; apply effective_end_match).
  rewrite segment_body_spec. unfold comment_of, segment_lines. rewrite Hend.
  split; [|split].
  - intros Hmeet. assert (suppressed skip segment = true) as ->; [|eauto].
    apply suppressed_by_lines. by rewrite Hend.
  - intros Hclear. assert (suppressed skip segment = false) as ->.
    { apply not_true_iff_false. rewrite suppressed_by_lines, Hend.
      intros (n & Hskip & Hn). destruct (Hclear n Hskip); lia. }
    rewrite app_nil_r. eauto.
  - intros Hempty. assert (suppressed skip segment = false) as ->.
    { apply not_true_iff_false. rewrite suppressed_by_lines, Hend.
      intros (n & _ & Hn). lia. }
    rewrite app_nil_r. eauto.
Qed.

(** X16.  The end of an insertion plays no part: the iteration gives
    the same outcome for any end, the insertion is discarded exactly
    when its anchor line is in the skip set, and its comment has the
    range (anchor, 0, anchor, 0). *)
Theorem insertion_ignores_end (name : string) (skip : gset Z) (st : MapperState)
        (anchor e1 e2 : Z) (content : list string) :
  segment_body name skip st (mkSegment anchor e1 INSERTION content) =
  segment_body name skip st (mkSegment anchor e2 INSERTION content) ∧
  (anchor ∈ skip →
   segment_body name skip st (mkSegment anchor e1 INSERTION content) =
   Ok (mkMapper (comments st) (Some "insert after")
         (trace st ++ [warning_class_workaround name (list_to_set [anchor])]))) ∧
  (anchor ∉ skip →
   segment_body name skip st (mkSegment anchor e1 INSERTION content) =
   Ok (mkMapper
         (setdefault_extend name
            [CommentInput.mk (suggestion_message "insert after" content)
               (mkCommentRange anchor 0 anchor 0)]
            (comments st))
         (Some "insert after") (trace st))).
Proof.
  assert (Hlines : ∀ e, segment_lines (mkSegment anchor e INSERTION content) =
                        list_to_set [anchor]).
  { intros e. unfold segment_lines, range, effective_end. simpl.
    replace (anchor + 1 - anchor) with 1 by lia. done. }
  assert (Hs : ∀ e, suppressed skip (mkSegment anchor e INSERTION content) =
                    suppressed skip (mkSegment anchor e1 INSERTION content)).
  { intros e. unfold suppressed. by rewrite !Hlines. }
  split; [|split].
  - rewrite !segment_body_spec, !Hlines, (Hs e2). done.
  - intros Hin. rewrite segment_body_spec, Hlines.
    assert (suppressed skip (mkSegment anchor e1 INSERTION content) = true) as ->; [|done].
    apply suppressed_by_lines. exists anchor. split; [done|].
    unfold effective_end. simpl. lia.
  - intros Hnotin. rewrite segment_body_spec.
    assert (suppressed skip (mkSegment anchor e1 INSERTION content) = false) as ->.
    { apply not_true_iff_false. rewrite suppressed_by_lines.
      intros (n & Hskip & Hn). unfold effective_end in Hn. simpl in Hn.
      replace n with anchor in Hskip by lia. done. }
    by rewrite app_nil_r.
Qed.

Lemma payload_size_insert_fresh (m : gmap string (list CommentInput.t)) name cs :
  m !! name = None → payload_size (<[name := cs]> m) = (length cs + payload_size m)%nat.
Proof.
  intros Hfresh. unfold payload_size.
  rewrite map_fold_insert_L; [done| |done]. intros. lia.
Qed.

Lemma payload_size_extend (m : gmap string (list CommentInput.t)) name new :
  payload_size (setdefault_extend name new m) = (payload_size m + length new)%nat.
Proof.
  unfold setdefault_extend. destruct (m !! name) as [old|] eqn:Hname; simpl.
  - rewrite <- (insert_delete_eq m).
    rewrite <- (insert_delete_id m name old Hname) at 2.
    rewrite !payload_size_insert_fresh by apply lookup_delete_eq.
    rewrite length_app. lia.
  - rewrite payload_size_insert_fresh by done. lia.
Qed.

Lemma segments_loop_count name skip segments st st' :
  for_each (segment_body name skip) st segments = Ok st' →
  (payload_size (comments st') + length (trace st') =
   payload_size (comments st) + length (trace st) + length segments)%nat.
Proof.
  revert st. induction segments as [|segment segments IH]; intros st; cbn [for_each].
  - intros [= <-]. simpl. lia.
  - rewrite segment_body_spec. intros Hrun. apply IH in Hrun. rewrite Hrun. simpl.
    destruct (suppressed skip segment); simpl.
    + rewrite length_app. simpl. lia.
    + rewrite payload_size_extend, app_nil_r. simpl. lia.
Qed.

Lemma file_body_count st f st' :
  file_body st f = Ok st' →
  (payload_size (comments st') + length (trace st') =
   payload_size (comments st) + length (trace st) +
   match formatted_contents f with
   | None => 0
   | Some _ => length (format_segments f)
   end)%nat.
Proof.
  unfold file_body.
  destruct (formatted_contents f) as [formatted|]; simpl.
  - destruct (Nat.eqb_spec (length (format_segments f)) 0) as [Hlen|Hlen].
    + intros [= <-]. lia.
    + destruct (patch_contents f) as [contents|]; [|done].
      apply segments_loop_count.
  - intros [= <-]. lia.
Qed.

Lemma files_loop_count fs st st' :
  for_each file_body st fs = Ok st' →
  (payload_size (comments st') + length (trace st') =
   payload_size (comments st) + length (trace st) +
   sum_list_with (λ f, match formatted_contents f with
                       | None => 0
                       | Some _ => length (format_segments f)
                       end) fs)%nat.
Proof.
  revert st. induction fs as [|f fs IH]; intros st; cbn [for_each].
  - intros [= <-]. simpl. lia.
  - destruct (file_body st f) as [st1|] eqn:Hf; [|done].
    intros Hrun. apply IH in Hrun. apply file_body_count in Hf.
    rewrite Hrun. simpl. lia.
Qed.

Lemma files_loop_count_payload (change : Change)
      (ri : ReviewInput.t) (evs : list Event) :
  _change_to_review_input change = Ok (ri, evs) →
  (payload_size (ReviewInput.comments ri) + length evs =
   sum_list_with (λ f, match formatted_contents f with
                       | None => 0
                       | Some _ => length (format_segments f)
                       end) (files change))%nat.
Proof.
  unfold _change_to_review_input.
  destruct (for_each file_body (mkMapper ∅ None []) (files change)) as [st'|] eqn:Hrun;
    [|done].
  apply files_loop_count in Hrun. simpl in Hrun.
  destruct (Nat.eqb (size (comments st')) 0); intros [= <- <-]; simpl;
    rewrite Hrun; unfold payload_size; by rewrite map_fold_empty.
Qed.

(** X17.  No segment is lost: the number of comments in the payload
    plus the number of records handed to the logger is the number of
    segments of the files that have formatted contents. *)
Theorem every_segment_is_accounted_for (change : Change)
        (ri : ReviewInput.t) (evs : list Event) :
  _change_to_review_input change = Ok (ri, evs) →
  (payload_size (ReviewInput.comments ri) + length evs =
   sum_list_with (λ f, match formatted_contents f with
                       | None => 0
                       | Some _ => length (format_segments f)
                       end) (files change))%nat.
Proof. apply files_loop_count_payload. Qed.

Lemma considered_spec f :
  considered f = true ↔ formatted_contents f ≠ None ∧ format_segments f ≠ [].
Proof.
  unfold considered. rewrite negb_true_iff, orb_false_iff, bool_decide_eq_false.
  rewrite Nat.eqb_neq. split; intros [? Hlen]; (split; [done|]).
  - intros Hnil. by rewrite Hnil in Hlen.
  - by destruct (format_segments f).
Qed.

(** Where a comment under a name comes from. *)
Lemma comments_for_source name fs c :
  c ∈ comments_for name fs →
  ∃ f segment, f ∈ fs ∧ filename f = name ∧ considered f = true ∧
               segment ∈ format_segments f ∧
               suppressed (skip_set f) segment = false ∧ c = comment_of segment.
Proof.
  unfold comments_for. intros Hc%list_elem_of_In.
  apply in_flat_map in Hc as (f & Hf%list_elem_of_In & Hc).
  destruct (decide (filename f = name)) as [Hname|]; [|done].
  apply list_elem_of_In in Hc. unfold file_comments in Hc.
  destruct (considered f) eqn:Hcons; [|by apply elem_of_nil in Hc].
  apply list_elem_of_fmap in Hc as (segment & -> & [Hs Hin]%list_elem_of_filter).
  by exists f, segment.
Qed.

Lemma warnings_source fs (e : Event) :
  e ∈ flat_map file_warnings fs →
  ∃ f segment, f ∈ fs ∧ considered f = true ∧ segment ∈ format_segments f ∧
               suppressed (skip_set f) segment = true ∧
               e = warning_class_workaround (filename f) (segment_lines segment).
Proof.
  intros He%list_elem_of_In.
  apply in_flat_map in He as (f & Hf%list_elem_of_In & He).
  apply list_elem_of_In in He. unfold file_warnings in He.
  destruct (considered f) eqn:Hcons; [|by apply elem_of_nil in He].
  apply list_elem_of_fmap in He as (segment & -> & [Hs Hin]%list_elem_of_filter).
  by exists f, segment.
Qed.

(** X18.  A name is a key of the comments of the payload only if it is
    the name of a file of the change that has formatted contents and
    segments, and the list under a key is never empty. *)
Theorem payload_keys_are_formatted_files (change : Change)
        (ri : ReviewInput.t) (evs : list Event) (name : string)
        (cs : list CommentInput.t) :
  _change_to_review_input change = Ok (ri, evs) →
  ReviewInput.comments ri !! name = Some cs →
  cs ≠ [] ∧
  ∃ f, f ∈ files change ∧ filename f = name ∧
       formatted_contents f ≠ None ∧ format_segments f ≠ [].
Proof.
  intros Hok Hname.
  destruct (mapper_cases change)
    as [(e & f & Hraise & _)|(ri' & evs' & Hok' & _ & Hlookup & _)]; [congruence|].
  rewrite Hok in Hok'. injection Hok' as <- <-.
  rewrite Hlookup in Hname. case_decide as Hnew; [|done]. injection Hname as <-.
  split; [done|].
  destruct (comments_for name (files change)) as [|c cs'] eqn:Hcs; [done|].
  destruct (comments_for_source name (files change) c)
    as (f & segment & Hf & Hfn & Hcons & _); [rewrite Hcs; apply list_elem_of_here|].
  exists f. split; [done|]. split; [done|]. by apply considered_spec.
Qed.

Lemma comments_and_sources_aux (change : Change)
      (ri : ReviewInput.t) (evs : list Event) :
  _change_to_review_input change = Ok (ri, evs) →
  ∀ name c,
    c ∈ ReviewInput.comments ri !!! name →
    ∃ f contents segment,
      f ∈ files change ∧ filename f = name ∧
      formatted_contents f ≠ None ∧ patch_contents f = Some contents ∧
      segment ∈ format_segments f ∧
      (∀ n, n ∈ get_class_lines_in_file contents →
            n < start segment ∨ effective_end segment < n) ∧
      c = comment_of segment.
Proof.
  intros Hok name c Hc.
  destruct (mapper_ok change ri evs Hok) as (Hpatch & Hcomments & _).
  rewrite Hcomments in Hc.
  destruct (comments_for_source _ _ _ Hc)
    as (f & segment & Hf & Hname & Hcons & Hin & Hs & ->).
  destruct (patch_contents f) as [contents|] eqn:Hp; [|by destruct (Hpatch f Hf Hcons)].
  exists f, contents, segment.
  split; [done|]. split; [done|]. split; [by apply considered_spec in Hcons as [? _]|].
  split; [done|]. split; [done|]. split; [|done].
  intros n Hn.
  destruct (decide (n < start segment ∨ effective_end segment < n)) as [|Hno]; [done|].
  exfalso. apply not_true_iff_false in Hs. apply Hs, suppressed_by_lines.
  exists n. split; [|lia].
  rewrite (skip_set_patch f contents Hp). by apply elem_of_list_to_set.
Qed.

(** X19.  Every comment of the payload under a name is the comment of a
    segment of a formatted file of that name none of whose lines
    start..end' is a class line of the file, and every record the
    mapper hands to the logger is the warning of a segment that has a
    class line of its file among its lines. *)
Theorem comments_and_warnings_have_sources (change : Change)
        (ri : ReviewInput.t) (evs : list Event) :
  _change_to_review_input change = Ok (ri, evs) →
  (∀ name c,
     c ∈ ReviewInput.comments ri !!! name →
     ∃ f contents segment,
       f ∈ files change ∧ filename f = name ∧
       formatted_contents f ≠ None ∧ patch_contents f = Some contents ∧
       segment ∈ format_segments f ∧
       (∀ n, n ∈ get_class_lines_in_file contents →
             n < start segment ∨ effective_end segment < n) ∧
       c = comment_of segment ∧
       CommentInput.range c =
         mkCommentRange (start segment) 0 (effective_end segment) 0) ∧
  (∀ e,
     e ∈ evs →
     ∃ f contents segment n,
       f ∈ files change ∧
       formatted_contents f ≠ None ∧ patch_contents f = Some contents ∧
       segment ∈ format_segments f ∧
       n ∈ get_class_lines_in_file contents ∧
       start segment ≤ n ≤ effective_end segment ∧
       e = warning_class_workaround (filename f)
             (list_to_set (range (start segment) (effective_end segment + 1)))).
Proof.
  intros Hok.
  destruct (mapper_ok change ri evs Hok) as (Hpatch & Hcomments & Hevs & _).
  split.
  - intros name c Hc. rewrite Hcomments in Hc.
    destruct (comments_for_source _ _ _ Hc)
      as (f & segment & Hf & Hname & Hcons & Hin & Hs & ->).
    destruct (patch_contents f) as [contents|] eqn:Hp; [|by destruct (Hpatch f Hf Hcons)].
    exists f, contents, segment.
    split; [done|]. split; [done|]. split; [by apply considered_spec in Hcons as [? _]|].
    split; [done|]. split; [done|]. split; [|done].
    intros n Hn.
    destruct (decide (n < start segment ∨ effective_end segment < n)) as [|Hno]; [done|].
    exfalso. apply not_true_iff_false in Hs. apply Hs, suppressed_by_lines.
    exists n. split; [|lia].
    rewrite (skip_set_patch f contents Hp). by apply elem_of_list_to_set.
  - intros e He. rewrite Hevs in He.
    destruct (warnings_source _ _ He) as (f & segment & Hf & Hcons & Hin & Hs & ->).
    destruct (patch_contents f) as [contents|] eqn:Hp; [|by destruct (Hpatch f Hf Hcons)].
    apply suppressed_by_lines in Hs as (n & Hskip & Hn).
    rewrite (skip_set_patch f contents Hp) in Hskip. apply elem_of_list_to_set in Hskip.
    exists f, contents, segment, n.
    split; [done|]. split; [by apply considered_spec in Hcons as [? _]|].
    done.
Qed.

Lemma set_formatted_contents_same f :
  set_formatted_contents f (formatted_contents f) = f.
Proof. by destruct f. Qed.

Lemma reformat_file_quiet f :
  (∀ contents segments, run_clang_format contents segments = None) →
  formatted_contents f = None →
  (reformat_file f).1 = f.
Proof.
  intros Hquiet Hnone. unfold reformat_file, format_file.
  repeat case_match; simpl; try done;
    by rewrite Hquiet, <- Hnone, set_formatted_contents_same.
Qed.

Lemma reformat_files_quiet fs :
  (∀ contents segments, run_clang_format contents segments = None) →
  Forall (λ f, formatted_contents f = None) fs →
  (reformat_files fs).1 = fs.
Proof.
  intros Hquiet. induction 1 as [|f fs Hf _ IH]; [done|].
  rewrite reformat_files_cons. simpl. by rewrite IH, reformat_file_quiet.
Qed.

Lemma files_loop_unformatted fs st :
  Forall (λ f, formatted_contents f = None) fs → for_each file_body st fs = Ok st.
Proof.
  induction 1 as [|f fs Hf _ IH]; [done|].
  cbn [for_each]. by rewrite file_body_unformatted.
Qed.

(** X20.  When the formatter returns no changes for any input, a change
    whose files come without formatted contents passes through
    [reformat_change] unchanged and gets the payload with the notice
    that no formatting changes are suggested, no comments, the label
    Haiku-Format: +1 and no warning. *)
Theorem no_reformats_give_positive_review (change : Change) :
  (∀ contents segments, run_clang_format contents segments = None) →
  Forall (λ f, formatted_contents f = None) (files change) →
  reformat_change change =
  (change, (reformat_files (files change)).2,
   Ok (ReviewInput.mk no_changes_message ∅ {[ "Haiku-Format" := 1 ]} OWNER, [])).
Proof.
  intros Hquiet Hfresh. unfold reformat_change.
  pose proof (reformat_files_quiet (files change) Hquiet Hfresh) as Hsame.
  destruct (reformat_files (files change)) as [fs evs]. simpl in Hsame. subst fs.
  unfold _change_to_review_input. cbn [files].
  rewrite (files_loop_unformatted (files change) _ Hfresh). simpl.
  by destruct change.
Qed.

(** X21.  The label of a payload is Haiku-Format: -1 exactly when some
    segment of some formatted file of the change has no class line of
    the file among its lines start..end'. *)
Theorem negative_vote_iff_segment_survives (change : Change)
        (ri : ReviewInput.t) (evs : list Event) :
  _change_to_review_input change = Ok (ri, evs) →
  ReviewInput.labels ri = {[ "Haiku-Format" := -1 ]} ↔
  ∃ f contents segment,
    f ∈ files change ∧
    formatted_contents f ≠ None ∧ patch_contents f = Some contents ∧
    segment ∈ format_segments f ∧
    ∀ n, n ∈ get_class_lines_in_file contents →
         n < start segment ∨ effective_end segment < n.
Proof.
  intros Hok.
  destruct (mapper_cases change)
    as [(e & f & Hraise & _)|(ri' & evs' & Hok' & _ & Hlookup & _ & _ & Hverdict)];
    [congruence|].
  rewrite Hok in Hok'. injection Hok' as <- <-.
  destruct (mapper_ok change ri evs Hok) as (_ & Hcomments & _).
  split.
  - intros Hlabels.
    destruct Hverdict as [(_ & _ & Hplus)|(Hsome & _)].
    { rewrite Hplus in Hlabels. apply (f_equal (lookup "Haiku-Format")) in Hlabels.
      by rewrite !lookup_singleton_eq in Hlabels. }
    apply map_choose in Hsome as (name & cs & Hname).
    rewrite Hlookup in Hname. case_decide as Hnew; [|done].
    destruct (comments_for name (files change)) as [|c cs'] eqn:Hcs; [done|].
    destruct (comments_and_sources_aux change ri evs Hok name c)
      as (f & contents & segment & Hf & _ & Hrest).
    { rewrite Hcomments, Hcs. apply list_elem_of_here. }
    destruct Hrest as (Hsome & Hp & Hin & Hclear & _).
    by exists f, contents, segment.
  - intros (f & contents & segment & Hf & Hsome & Hp & Hin & Hclear).
    destruct Hverdict as [(Hempty & _)|(_ & _ & Hminus)]; [|done].
    exfalso.
    assert (Hs : suppressed (skip_set f) segment = false).
    { apply not_true_iff_false. rewrite suppressed_by_lines.
      intros (n & Hskip & Hn). rewrite (skip_set_patch f contents Hp) in Hskip.
      apply elem_of_list_to_set in Hskip. destruct (Hclear n Hskip); lia. }
    pose proof (comments_for_elem f (files change) (comment_of segment) Hf
                  (file_comments_elem f segment Hsome Hin Hs)) as Hc.
    rewrite <- Hcomments, Hempty, lookup_total_empty in Hc. by apply elem_of_nil in Hc.
Qed.

Lemma file_body_raises st f e :
  file_body st f = Raise e →
  e = TypeError "object of type 'NoneType' has no len()" ∧
  formatted_contents f ≠ None ∧ format_segments f ≠ [] ∧ patch_contents f = None.
Proof.
  unfold file_body.
  destruct (formatted_contents f) as [formatted|]; simpl; [|done].
  destruct (Nat.eqb_spec (length (format_segments f)) 0) as [Hlen|Hlen]; [done|].
  destruct (patch_contents f) as [contents|].
  - destruct (segments_loop (filename f) (list_to_set (get_class_lines_in_file contents))
                (format_segments f) st) as (st' & -> & _). done.
  - intros [= <-]. split; [done|]. split; [done|]. split; [|done].
    intros Hnil. by rewrite Hnil in Hlen.
Qed.

(** X22.  The comment mapper raises only a TypeError, and only for a
    change holding a file with formatted contents and segments but
    without patch contents; it never raises for the unbound variable
    [operation]. *)
Theorem mapper_raises_only_without_patch_contents (change : Change) (e : Exception) :
  _change_to_review_input change = Raise e →
  e = TypeError "object of type 'NoneType' has no len()" ∧
  ∃ f, f ∈ files change ∧
       formatted_contents f ≠ None ∧ format_segments f ≠ [] ∧ patch_contents f = None.
Proof.
  unfold _change_to_review_input.
  destruct (for_each file_body (mkMapper ∅ None []) (files change)) as [st'|e'] eqn:Hrun.
  { by destruct (Nat.eqb _ _). }
  intros [= <-]. revert Hrun. generalize (mkMapper ∅ None []).
  induction (files change) as [|f fs IH]; intros st; cbn [for_each]; [done|].
  destruct (file_body st f) as [st1|e1] eqn:Hf.
  - intros Hrun. destruct (IH st1 Hrun) as (He & g & Hg & Hrest).
    split; [done|]. exists g. split; [by apply list_elem_of_further|done].
  - intros [= <-]. apply file_body_raises in Hf as (He & Hrest).
    split; [done|]. exists f. split; [apply list_elem_of_here|done].
Qed.

End MoreMapperProperties.

Section VerdictProperties.
Context `{Collaborators}.

Lemma comments_for_none name (fs : list FileChange) :
  (∀ f, f ∈ fs → file_comments f = []) → comments_for name fs = [].
Proof.
  induction fs as [|f fs IH]; intros Hnone; [done|].
  rewrite comments_for_cons, (Hnone f) by apply list_elem_of_here.
  rewrite IH; [by destruct (decide _)|].
  intros g Hg. apply Hnone. by apply list_elem_of_further.
Qed.

Lemma payload_empty_iff (change : Change) (ri : ReviewInput.t) (evs : list Event) :
  _change_to_review_input change = Ok (ri, evs) →
  ReviewInput.comments ri = ∅ ↔ ∀ f, f ∈ files change → file_comments f = [].
Proof.
  intros Hok.
  destruct (mapper_ok change ri evs Hok) as (_ & Hcomments & _).
  split.
  - intros Hempty f Hf.
    destruct (file_comments f) as [|c cs] eqn:Hfc; [done|]. exfalso.
    assert (Hc : c ∈ ReviewInput.comments ri !!! filename f).
    { rewrite Hcomments. apply comments_for_elem; [done|].
      rewrite Hfc. apply list_elem_of_here. }
    rewrite Hempty, lookup_total_empty in Hc. by apply elem_of_nil in Hc.
  - intros Hnone. apply map_eq. intros name. rewrite lookup_empty.
    destruct (ReviewInput.comments ri !! name) as [cs|] eqn:Hname; [|done]. exfalso.
    destruct (mapper_cases change)
      as [(e & f & Hraise & _)|(ri' & evs' & Hok' & _ & Hlookup & _)]; [congruence|].
    rewrite Hok in Hok'. injection Hok' as <- <-.
    rewrite Hlookup in Hname. case_decide as Hnew; [|done].
    apply Hnew. by apply comments_for_none.
Qed.

(** X23.  The verdict does not depend on the order of the files: two
    changes whose file lists are permutations of each other get the
    same message, labels and notify directive, and as many
    warnings. *)
Theorem verdict_independent_of_file_order (change1 change2 : Change)
        (ri1 ri2 : ReviewInput.t) (evs1 evs2 : list Event) :
  files change1 ≡ₚ files change2 →
  _change_to_review_input change1 = Ok (ri1, evs1) →
  _change_to_review_input change2 = Ok (ri2, evs2) →
  ReviewInput.message ri1 = ReviewInput.message ri2 ∧
  ReviewInput.labels ri1 = ReviewInput.labels ri2 ∧
  ReviewInput.notify ri1 = ReviewInput.notify ri2 ∧
  length evs1 = length evs2.
Proof.
  intros Hperm Hok1 Hok2.
  pose proof (payload_empty_iff change1 ri1 evs1 Hok1) as Hempty1.
  pose proof (payload_empty_iff change2 ri2 evs2 Hok2) as Hempty2.
  destruct (mapper_ok change1 ri1 evs1 Hok1) as (_ & _ & Hevs1 & Hn1 & Hv1).
  destruct (mapper_ok change2 ri2 evs2 Hok2) as (_ & _ & Hevs2 & Hn2 & Hv2).
  assert (Hsame : ReviewInput.comments ri1 = ∅ ↔ ReviewInput.comments ri2 = ∅).
  { rewrite Hempty1, Hempty2. split; intros Hnone f Hf; apply Hnone.
    - by rewrite Hperm.
    - by rewrite <- Hperm. }
  assert (Hlen : length evs1 = length evs2).
  { rewrite Hevs1, Hevs2. clear -Hperm.
    induction Hperm as [|f fs fs' _ IH|f g fs|fs fs' fs'' _ IH1 _ IH2]; simpl;
      rewrite ?length_app; lia. }
  rewrite Hn1, Hn2.
  destruct Hv1 as [(He1 & -> & ->)|(He1 & -> & ->)],
           Hv2 as [(He2 & -> & ->)|(He2 & -> & ->)];
    repeat split; try done; exfalso; tauto.
Qed.

(** X24.  When no file of the change has a line that starts with class
    or struct and a space, the mapper logs no warning and the payload
    holds one comment per segment of the formatted files. *)
Theorem no_class_lines_no_warnings (change : Change)
        (ri : ReviewInput.t) (evs : list Event) :
  _change_to_review_input change = Ok (ri, evs) →
  (∀ f contents, f ∈ files change → patch_contents f = Some contents →
     Forall (λ line, ∀ rest, line ≠ "class " +:+ rest ∧ line ≠ "struct " +:+ rest)
            contents) →
  evs = [] ∧
  payload_size (ReviewInput.comments ri) =
    sum_list_with (λ f, match formatted_contents f with
                        | None => 0%nat
                        | Some _ => length (format_segments f)
                        end) (files change).
Proof.
  intros Hok Hplain.
  assert (Hevs : evs = []).
  { destruct evs as [|e evs']; [done|]. exfalso.
    destruct (mapper_ok change ri (e :: evs') Hok) as (Hpatch & _ & Hevs & _).
    destruct (warnings_source (files change) e)
      as (f & segment & Hf & Hcons & Hin & Hs & _);
      [rewrite <- Hevs; apply list_elem_of_here|].
    destruct (patch_contents f) as [contents|] eqn:Hp; [|by destruct (Hpatch f Hf Hcons)].
    apply suppressed_by_lines in Hs as (n & Hskip & _).
    rewrite (skip_set_patch f contents Hp) in Hskip.
    rewrite (no_keyword_no_class_lines contents (Hplain f contents Hf Hp)) in Hskip.
    by apply elem_of_list_to_set, elem_of_nil in Hskip. }
  split; [done|].
  pose proof (files_loop_count_payload change ri evs Hok) as Hcount.
  rewrite Hevs in Hcount. simpl in Hcount. lia.
Qed.

End VerdictProperties.

Lemma loop_changes_formatted_contents_only_witness :
  filename (set_formatted_contents sample_new (Some sample_formatted)) = "src/Foo.cpp" ∧
  patch_contents (set_formatted_contents sample_new (Some sample_formatted)) =
    Some sample_patch.
Proof.
  destruct (loop_changes_formatted_contents_only (H := sample_collaborators)
              (files sample_change)) as [_ Hsame].
  destruct (Hsame 3%nat sample_new (set_formatted_contents sample_new (Some sample_formatted))
              eq_refl eq_refl) as (Hname & _ & Hpatch & _).
  split; [exact Hname|exact Hpatch].
Defined.

Lemma formatter_called_only_for_eligible_files_witness :
  ∃ f, f ∈ files sample_change ∧ patch_contents f = Some sample_patch ∧
       matches true EXTENSION_PATTERN (filename f) = true.
Proof.
  destruct (formatter_called_only_for_eligible_files (H := sample_collaborators)
              (files sample_change) sample_patch [(2, 2); (4, 8)])
    as (f & Hf & Hext & Hpatch & _).
  - apply list_elem_of_In. vm_compute. tauto.
  - exists f. split; [exact Hf|]. split; [exact Hpatch|exact Hext].
Defined.

Lemma suppression_by_line_numbers_witness :
  ∃ operation',
    segment_body (H := sample_collaborators) "src/Foo.cpp" {[ 2; 3 ]} (mkMapper ∅ None [])
      (mkSegment 1 2 MODIFICATION ["struct Foo"]) =
    Ok (mkMapper ∅ operation'
          [warning_class_workaround "src/Foo.cpp" (list_to_set (range 1 (2 + 1)))]).
Proof.
  destruct (suppression_by_line_numbers (H := sample_collaborators) "src/Foo.cpp"
              {[ 2; 3 ]} (mkMapper ∅ None []) (mkSegment 1 2 MODIFICATION ["struct Foo"]))
    as (Hmeet & _).
  apply Hmeet. exists 2. split; [|simpl; lia].
  apply elem_of_union. left. by apply elem_of_singleton.
Defined.

Lemma insertion_ignores_end_witness :
  segment_body (H := sample_collaborators) "src/Foo.cpp" {[ 2 ]} (mkMapper ∅ None [])
    (mkSegment 2 9 INSERTION ["int y;"]) =
  Ok (mkMapper ∅ (Some "insert after")
        [warning_class_workaround "src/Foo.cpp" (list_to_set [2])]).
Proof.
  destruct (insertion_ignores_end (H := sample_collaborators) "src/Foo.cpp" {[ 2 ]}
              (mkMapper ∅ None []) 2 9 0 ["int y;"]) as (_ & Hin & _).
  apply Hin. by apply elem_of_singleton.
Defined.

Lemma every_segment_is_accounted_for_witness :
  (payload_size (ReviewInput.comments sample_review) + length sample_records = 4)%nat.
Proof.
  apply (every_segment_is_accounted_for (H := sample_collaborators)
           sample_formatted_change sample_review sample_records).
  vm_compute. reflexivity.
Defined.

Lemma payload_keys_are_formatted_files_witness :
  ∃ f, f ∈ files sample_formatted_change ∧ filename f = "src/Foo.cpp" ∧
       formatted_contents f ≠ None.
Proof.
  destruct (payload_keys_are_formatted_files (H := sample_collaborators)
              sample_formatted_change sample_review sample_records "src/Foo.cpp"
              [comment_of (mkSegment 1 1 MODIFICATION ["struct Foo"; "{"]);
               comment_of (mkSegment 5 6 INSERTION ["  int y;"]);
               comment_of (mkSegment 7 7 DELETION [])])
    as (_ & f & Hf & Hname & Hsome & _).
  - vm_compute. reflexivity.
  - vm_compute. reflexivity.
  - exists f. split; [exact Hf|]. split; [exact Hname|exact Hsome].
Defined.

Lemma comments_and_warnings_have_sources_witness :
  ∃ f contents segment n,
    f ∈ files sample_formatted_change ∧ patch_contents f = Some contents ∧
    segment ∈ format_segments (Collaborators := sample_collaborators) f ∧
    n ∈ get_class_lines_in_file contents ∧ start segment ≤ n ≤ effective_end segment.
Proof.
  destruct (comments_and_warnings_have_sources (H := sample_collaborators)
              sample_formatted_change sample_review sample_records) as [_ Hwarnings].
  - vm_compute. reflexivity.
  - destruct (Hwarnings (warning_class_workaround "src/Foo.cpp" {[ 2 ]}))
      as (f & contents & segment & n & Hf & _ & Hp & Hin & Hn & Hspan & _).
    + apply list_elem_of_here.
    + exists f, contents, segment, n. repeat split; assumption || apply Hspan.
Defined.

Lemma no_reformats_give_positive_review_witness :
  reformat_change (H := quiet_collaborators) sample_change =
  (sample_change, (reformat_files (H := quiet_collaborators) (files sample_change)).2,
   Ok (ReviewInput.mk no_changes_message ∅ {[ "Haiku-Format" := 1 ]} OWNER, [])).
Proof.
  apply (no_reformats_give_positive_review (H := quiet_collaborators) sample_change).
  - reflexivity.
  - repeat constructor.
Defined.

Lemma negative_vote_iff_segment_survives_witness :
  ReviewInput.labels sample_review = {[ "Haiku-Format" := -1 ]}.
Proof.
  apply (negative_vote_iff_segment_survives (H := sample_collaborators)
           sample_formatted_change sample_review sample_records).
  - vm_compute. reflexivity.
  - exists (set_formatted_contents sample_new (Some sample_formatted)), sample_patch,
      (mkSegment 7 7 DELETION []).
    split; [apply list_elem_of_here|]. split; [discriminate|]. split; [reflexivity|].
    split; [apply list_elem_of_In; vm_compute; tauto|].
    intros n Hn. apply list_elem_of_In in Hn. vm_compute in Hn.
    destruct Hn as [<-|[]]. left. reflexivity.
Defined.

Lemma mapper_raises_only_without_patch_contents_witness :
  ∃ f, f ∈ files sample_broken_change ∧ patch_contents f = None.
Proof.
  destruct (mapper_raises_only_without_patch_contents (H := sample_collaborators)
              sample_broken_change (TypeError "object of type 'NoneType' has no len()"))
    as (_ & f & Hf & _ & _ & Hp).
  - vm_compute. reflexivity.
  - exists f. split; [exact Hf|exact Hp].
Defined.

Lemma verdict_independent_of_file_order_witness :
  ∃ ri1 ri2 evs1 evs2,
    _change_to_review_input (H := sample_collaborators)
      (mkChange (files sample_formatted_change ++ files sample_plain_change)) = Ok (ri1, evs1) ∧
    _change_to_review_input (H := sample_collaborators)
      (mkChange (files sample_plain_change ++ files sample_formatted_change)) = Ok (ri2, evs2) ∧
    ReviewInput.labels ri1 = ReviewInput.labels ri2.
Proof.
  destruct (_change_to_review_input (H := sample_collaborators)
              (mkChange (files sample_formatted_change ++ files sample_plain_change)))
    as [[ri1 evs1]|e1] eqn:H1; [|vm_compute in H1; discriminate].
  destruct (_change_to_review_input (H := sample_collaborators)
              (mkChange (files sample_plain_change ++ files sample_formatted_change)))
    as [[ri2 evs2]|e2] eqn:H2; [|vm_compute in H2; discriminate].
  exists ri1, ri2, evs1, evs2. split; [reflexivity|]. split; [reflexivity|].
  apply (verdict_independent_of_file_order (H := sample_collaborators)
           (mkChange (files sample_formatted_change ++ files sample_plain_change))
           (mkChange (files sample_plain_change ++ files sample_formatted_change))
           ri1 ri2 evs1 evs2); [|exact H1|exact H2].
  apply Permutation_app_comm.
Defined.

Lemma no_class_lines_no_warnings_witness :
  ∃ ri, _change_to_review_input (H := sample_collaborators) sample_plain_change = Ok (ri, []) ∧
        payload_size (ReviewInput.comments ri) = 4%nat.
Proof.
  destruct (_change_to_review_input (H := sample_collaborators) sample_plain_change)
    as [[ri evs]|e] eqn:Hok; [|vm_compute in Hok; discriminate].
  destruct (no_class_lines_no_warnings (H := sample_collaborators)
              sample_plain_change ri evs Hok) as [-> Hsize].
  - intros f contents Hf Hp. apply list_elem_of_singleton in Hf. subst f.
    injection Hp as <-. repeat constructor; discriminate.
  - exists ri. split; [reflexivity|exact Hsize].
Defined.
